(** * The message namespace of the remind-clone socket server

    A shallow embedding of the socket handlers of [MessageNamespace]
    ([_newMessageHandler], [createNewGroupMessageHandler],
    [createNewMessageHandler], [createNewSingleMessageHandler]) and the
    properties of the messaging core that its specification states.

    The handlers are JavaScript: their objects live in a shared store and
    are passed around by reference, they call asynchronous services that
    may reject, and they talk to the clients through acknowledgment
    callbacks and channel broadcasts.  The embedding keeps all three: a
    heap of cells addressed by references, a completion monad with
    [try]/[catch], [return] and [await], and a trace of the observable
    events of one handler run.  The namespace on which the handlers
    select rooms and broadcast is shared by all runs: [Namespace] and
    [deliver] say what the calls of a trace do to it. *)

From Stdlib Require Import ZArith List String Ascii Bool Lia.
From stdpp Require Import base list strings pretty.

Open Scope string_scope.

(** ** Values *)

(** The primitive values a decoded packet or a database row can hold.
    Numbers are the integers (identifiers, lengths).  The program holds a
    number as a double: [PNum n] is the double nearest to [n], which is
    [n] itself when [n] has at most 53 binary digits, and it is printed
    as a double is ([numberToString]).  Strings hold one character per
    code unit. *)
Inductive Prim :=
| PUndefined
| PNull
| PBool (b : bool)
| PNum (n : Z)
| PStr (s : string).

(** References.  Objects decoded from the incoming packet and objects
    allocated while the handler runs are kept in two arenas, so that an
    allocation never renames an object of the packet. *)
Inductive loc :=
| Received (i : nat)
| Allocated (i : nat).

(** A value is a primitive, a reference to an object or an array, or an
    error object ([new Error(message)], or a [TypeError] of the runtime;
    error objects are never assigned to here and are kept by value). *)
Inductive JVal :=
| JPrim (p : Prim)
| JRef (l : loc)
| JError (message : string)
| JTypeError.

Coercion JPrim : Prim >-> JVal.

Definition undefined : JVal := JPrim PUndefined.
Definition null : JVal := JPrim PNull.

(** The property names the handlers read and write; [index0] is the
    property [0] of [receivers[0]]. *)
Module Key.
Inductive t :=
| sender | message | messageText | createdAt | conversationId | canReply
| attachment | classroomId | receivers
| id | name | length | index0
| sender_id | conversation_id | message_text | attachment_id
| type | creator_id | classroom_id | conversation_name
| newMsg | newConvo.

Definition eqb (a b : t) : bool :=
  match a, b with
  | sender, sender | message, message | messageText, messageText
  | createdAt, createdAt | conversationId, conversationId
  | canReply, canReply | attachment, attachment
  | classroomId, classroomId | receivers, receivers
  | id, id | name, name | length, length | index0, index0
  | sender_id, sender_id | conversation_id, conversation_id
  | message_text, message_text | attachment_id, attachment_id
  | type, type | creator_id, creator_id | classroom_id, classroom_id
  | conversation_name, conversation_name
  | newMsg, newMsg | newConvo, newConvo => true
  | _, _ => false
  end.
End Key.

(** A flat object of a packet or a database row: the value of each of its
    fields, [undefined] for a field it does not have. *)
Definition Fields := Key.t -> Prim.

Definition noFields : Fields := fun _ => PUndefined.

(** The fields given by a list, for writing objects down. *)
Fixpoint fieldsOf (l : list (Key.t * Prim)) : Fields :=
  fun k =>
    match l with
    | [] => PUndefined
    | (k', v) :: l' => if Key.eqb k k' then v else fieldsOf l' k
    end.

(** The properties the program wrote, in insertion order. *)
Definition Props := list (Key.t * JVal).

(** An object is the properties written by the program ([own]: those of
    an object literal and those assigned later) over the fields it came
    with ([base]: none for a literal); an array is its elements. *)
Inductive Cell :=
| CObj (own : Props) (base : Fields)
| CArr (elems : list JVal).

Record Heap := mkHeap {
  received : list Cell;
  allocated : list Cell
}.

Definition cellAt (h : Heap) (l : loc) : option Cell :=
  match l with
  | Received i => received h !! i
  | Allocated i => allocated h !! i
  end.

Definition storeAt (h : Heap) (l : loc) (c : Cell) : Heap :=
  match l with
  | Received i => mkHeap (<[i := c]> (received h)) (allocated h)
  | Allocated i => mkHeap (received h) (<[i := c]> (allocated h))
  end.

Fixpoint getProp (k : Key.t) (own : Props) (base : Fields) : JVal :=
  match own with
  | [] => JPrim (base k)
  | (k', v) :: own' => if Key.eqb k k' then v else getProp k own' base
  end.

(** [o.k = v]: a property already written keeps its place, a new one goes
    last. *)
Fixpoint setProp (k : Key.t) (v : JVal) (own : Props) : Props :=
  match own with
  | [] => [(k, v)]
  | (k', v') :: own' =>
      if Key.eqb k k' then (k, v) :: own' else (k', v') :: setProp k v own'
  end.

(** ** Operators *)

Definition nullishPrim (p : Prim) : bool :=
  match p with
  | PUndefined | PNull => true
  | _ => false
  end.

Definition isNullPrim (p : Prim) : bool :=
  match p with
  | PNull => true
  | _ => false
  end.

Definition truthyPrim (p : Prim) : bool :=
  match p with
  | PUndefined | PNull => false
  | PBool b => b
  | PNum n => negb (Z.eqb n 0)
  | PStr s => negb (String.eqb s "")
  end.

(** ToBoolean. *)
Definition truthy (v : JVal) : bool :=
  match v with
  | JPrim p => truthyPrim p
  | JRef _ | JError _ | JTypeError => true
  end.

(** [a || b] on values already evaluated: the right operand is a variable,
    a literal, or a property of an object that was just read from, so
    nothing hangs on whether it is evaluated. *)
Definition jsOr (a b : JVal) : JVal := if truthy a then a else b.

(** [v != null] *)
Definition looseNeqNull (v : JVal) : bool :=
  match v with
  | JPrim p => negb (nullishPrim p)
  | _ => true
  end.

(** [v !== null] *)
Definition strictNeqNull (v : JVal) : bool :=
  match v with
  | JPrim p => negb (isNullPrim p)
  | _ => true
  end.

(** [v === 1] *)
Definition strictEqOne (v : JVal) : bool :=
  match v with
  | JPrim (PNum n) => Z.eqb n 1
  | _ => false
  end.

(** *** Numbers as text *)

(** The double nearest to the integer [n], for [0 < n]: [n] rounded to 53
    binary digits, to the nearest and, of two nearest, to the even one. *)
Definition nearestDouble (n : Z) : Z :=
  let k := (Z.log2 n + 1 - 53)%Z in
  if (k <=? 0)%Z then n
  else
    let q := Z.shiftr n k in
    let r := (n - Z.shiftl q k)%Z in
    let half := Z.shiftl 1 (k - 1) in
    let q' := if (half <? r)%Z || ((r =? half)%Z && Z.odd q) then (q + 1)%Z else q in
    Z.shiftl q' k.

(** The integer [c] is read as the double [v], for [v = m * 2^e] above
    [2^53] with [m] of 53 binary digits: [c] lies within half a step of
    [v] (a quarter below a power of two), the ends counted when [m] is
    even. *)
Definition roundsTo (v c : Z) : bool :=
  let e := (Z.log2 v - 52)%Z in
  let m := Z.shiftr v e in
  let hi := (v + Z.shiftl 1 (e - 1))%Z in
  let lo := if (m =? 2 ^ 52)%Z then (v - Z.shiftl 1 (e - 2))%Z
            else (v - Z.shiftl 1 (e - 1))%Z in
  if Z.even m then (lo <=? c)%Z && (c <=? hi)%Z else (lo <? c)%Z && (c <? hi)%Z.

Definition digits (n : Z) : Z := Z.of_nat (String.length (pretty n)).

(** The number with the fewest digits before its zeros that is read as
    [v]; of two with as many digits, the one nearer to [v], and the even
    one when they are as near.  [p] counts the zeros. *)
Fixpoint shortest (fuel : nat) (v p : Z) : Z :=
  match fuel with
  | O => v
  | S fuel' =>
      let u := (10 ^ p)%Z in
      let c0 := (v / u * u)%Z in
      let c1 := (c0 + u)%Z in
      match roundsTo v c0, roundsTo v c1 with
      | true, true =>
          if (v - c0 <? c1 - v)%Z then c0
          else if (c1 - v <? v - c0)%Z then c1
          else if Z.even (v / u) then c0 else c1
      | true, false => c0
      | false, true => c1
      | false, false => shortest fuel' v (p - 1)
      end
  end.

Fixpoint stripZeros (s : string) : string :=
  match s with
  | EmptyString => EmptyString
  | String c s' =>
      match stripZeros s' with
      | EmptyString => if Ascii.eqb c "0"%char then EmptyString else String c EmptyString
      | t => String c t
      end
  end.

(** [d.ddde+n] *)
Definition exponential (c : Z) : string :=
  match stripZeros (pretty c) with
  | EmptyString => "0"
  | String d EmptyString => String d EmptyString +:+ "e+" +:+ pretty (digits c - 1)%Z
  | String d more => String d ("." +:+ more) +:+ "e+" +:+ pretty (digits c - 1)%Z
  end.

(** A number above [2^53]: the shortest digits that are read as the same
    double, followed by zeros up to 21 digits and with an exponent
    beyond. *)
Definition largeToString (n : Z) : string :=
  let v := nearestDouble n in
  if (2 ^ 1024 <=? v)%Z then "Infinity"
  else
    let c := shortest (Z.to_nat (digits v)) v (digits v - 1) in
    if (digits c <=? 21)%Z then pretty c else exponential c.

(** An integer that a double holds and prints digit by digit. *)
Definition exactInteger (n : Z) : bool := (Z.abs n <=? 9007199254740992)%Z.

(** Number::toString, on integers. *)
Definition numberToString (n : Z) : string :=
  if exactInteger n then pretty n
  else if (n <? 0)%Z then "-" +:+ largeToString (- n)
  else largeToString n.

(** ToString of a primitive, as a template literal prints it. *)
Definition primToString (p : Prim) : string :=
  match p with
  | PUndefined => "undefined"
  | PNull => "null"
  | PBool true => "true"
  | PBool false => "false"
  | PNum n => numberToString n
  | PStr s => s
  end.

(** ** Events *)

(** The acknowledgment function a client attached to its packet, named by
    the packet, and the empty function [function (err, msg) {}]. *)
Inductive Callback :=
| AckOf (packet : nat)
| Noop.

Inductive Service :=
| InsertFile
| InsertMessage
| CreateNewConversation
| GetTwoUsersConvoId.

(** What one handler run does to the world, in order.  An event that hands
    a reference to the outside carries the heap of that moment: the
    transport encodes what it is given when it is called, and a later
    assignment to the same object does not reach what was sent.  A call of
    the empty function is kept on the trace as well, to tell which
    function a handler called. *)
Inductive Event :=
| EvCallback (callee : Callback) (args : list JVal) (h : Heap)
| EvService (svc : Service) (args : list JVal) (h : Heap)
| EvJoinAll (channels : list string) (target : string)
| EvEmit (channel : string) (event : string) (payload : JVal) (h : Heap)
| EvConsoleLog (v : JVal)
| EvDebug (err : JVal)
| EvUnhandledRejection (err : JVal).

Record State := mkState {
  heap : Heap;
  trace : list Event
}.

(** ** The completion monad *)

(** How an [await]ed promise settles.  [Unmodelled] marks a run that
    reached a step the embedding gives no meaning to. *)
Inductive Settlement :=
| Fulfilled (v : JVal)
| Rejected (e : JVal)
| Unmodelled.

(** How a statement completes: normally, by [return p] (the promise of the
    enclosing async function adopts [p]), by [throw], or at a step outside
    the embedding. *)
Inductive Completion (A : Type) :=
| Normal (a : A)
| Returned (p : Settlement)
| Thrown (e : JVal)
| Stuck.

Arguments Normal {A} a.
Arguments Returned {A} p.
Arguments Thrown {A} e.
Arguments Stuck {A}.

Definition M (A : Type) : Type := State -> Completion A * State.

(** A promise, run to its settlement.  One handler run is followed in
    isolation: no other handler is interleaved at its [await]s. *)
Definition Promise : Type := State -> Settlement * State.

Definition ret {A} (a : A) : M A := fun s => (Normal a, s).

Definition bind {A B} (m : M A) (k : A -> M B) : M B :=
  fun s =>
    match m s with
    | (Normal a, s') => k a s'
    | (Returned p, s') => (Returned p, s')
    | (Thrown e, s') => (Thrown e, s')
    | (Stuck, s') => (Stuck, s')
    end.

#[global] Instance M_ret : MRet M := @ret.
#[global] Instance M_bind : MBind M := fun A B k m => bind m k.

Definition throw {A} (e : JVal) : M A := fun s => (Thrown e, s).
Definition stuck {A} : M A := fun s => (Stuck, s).

(** [try { body } catch (err) { handler err }] *)
Definition tryCatch {A} (body : M A) (handler : JVal -> M A) : M A :=
  fun s =>
    match body s with
    | (Thrown e, s') => handler e s'
    | r => r
    end.

(** [await p] *)
Definition await (p : Promise) : M JVal :=
  fun s =>
    match p s with
    | (Fulfilled v, s') => (Normal v, s')
    | (Rejected e, s') => (Thrown e, s')
    | (Unmodelled, s') => (Stuck, s')
    end.

(** [return p], with [p] a promise, inside an async function. *)
Definition returnPromise {A} (p : Promise) : M A :=
  fun s => let (r, s') := p s in (Returned r, s').

(** [async function (...) { body }], called. *)
Definition asyncFunction (body : M unit) : Promise :=
  fun s =>
    match body s with
    | (Normal _, s') => (Fulfilled undefined, s')
    | (Returned p, s') => (p, s')
    | (Thrown e, s') => (Rejected e, s')
    | (Stuck, s') => (Unmodelled, s')
    end.

Definition record (e : Event) : M unit :=
  fun s => (Normal tt, mkState (heap s) (trace s ++ [e])).

Definition getHeap : M Heap := fun s => (Normal (heap s), s).

(** A call of an async function whose promise is dropped: the caller goes
    on, and a rejection is nobody's to handle. *)
Definition callDetached (p : Promise) : M unit :=
  r ← (fun s => let (r, s') := p s in (Normal r, s'));
  match r with
  | Fulfilled _ => ret tt
  | Rejected e => record (EvUnhandledRejection e)
  | Unmodelled => stuck
  end.

(** ** Objects and arrays in the store *)

(** An object or array literal. *)
Definition alloc (c : Cell) : M JVal :=
  fun s =>
    let h := heap s in
    (Normal (JRef (Allocated (length (allocated h)))),
     mkState (mkHeap (received h) (allocated h ++ [c])) (trace s)).

Definition newObject (ps : Props) : M JVal := alloc (CObj ps noFields).
Definition newArray (es : list JVal) : M JVal := alloc (CArr es).

(** A property of a primitive that is neither [undefined] nor [null]: a
    string has [length], and none has any other property that the
    handlers read. *)
Definition primField (p : Prim) (k : Key.t) : JVal :=
  match k, p with
  | Key.length, PStr s => JPrim (PNum (Z.of_nat (String.length s)))
  | _, _ => undefined
  end.

(** [v.k].  Reading a property of [undefined] or [null] throws. *)
Definition getField (v : JVal) (k : Key.t) : M JVal :=
  match v with
  | JPrim p => if nullishPrim p then throw JTypeError else ret (primField p k)
  | JError m => ret (match k with Key.message => JPrim (PStr m) | _ => undefined end)
  | JTypeError => ret undefined
  | JRef l =>
      h ← getHeap;
      match cellAt h l with
      | Some (CObj own base) => ret (getProp k own base)
      | Some (CArr es) =>
          ret (match k with
               | Key.length => JPrim (PNum (Z.of_nat (length es)))
               | _ => undefined
               end)
      | None => stuck
      end
  end.

(** [v[0]] *)
Definition getFirst (v : JVal) : M JVal :=
  match v with
  | JPrim p =>
      if nullishPrim p then throw JTypeError
      else ret (match p with
                | PStr (String c _) => JPrim (PStr (String c EmptyString))
                | _ => undefined
                end)
  | JError _ | JTypeError => ret undefined
  | JRef l =>
      h ← getHeap;
      match cellAt h l with
      | Some (CObj own base) => ret (getProp Key.index0 own base)
      | Some (CArr es) => ret (default undefined (es !! 0))
      | None => stuck
      end
  end.

(** [v.k = x], in strict mode (a class body): assigning a property of a
    primitive throws.  No handler assigns a named property of an array. *)
Definition setField (v : JVal) (k : Key.t) (x : JVal) : M unit :=
  match v with
  | JPrim _ => throw JTypeError
  | JError _ | JTypeError => stuck
  | JRef l =>
      fun s =>
        match cellAt (heap s) l with
        | Some (CObj own base) =>
            (Normal tt,
             mkState (storeAt (heap s) l (CObj (setProp k x own) base)) (trace s))
        | _ => (Stuck, s)
        end
  end.

(** The elements of an array, for [map], [forEach] and spread.  A value
    that is not an array has no [map] to call. *)
Definition arrayElems (v : JVal) : M (list JVal) :=
  match v with
  | JPrim PUndefined | JPrim PNull => throw JTypeError
  | JPrim _ | JError _ | JTypeError => throw JTypeError
  | JRef l =>
      h ← getHeap;
      match cellAt h l with
      | Some (CArr es) => ret es
      | Some (CObj _ _) => throw JTypeError
      | None => stuck
      end
  end.

Fixpoint mapM {A B} (f : A -> M B) (l : list A) : M (list B) :=
  match l with
  | [] => ret []
  | a :: l' => b ← f a; bs ← mapM f l'; ret (b :: bs)
  end.

(** [`prefix${v}`].  An object prints as [[object Object]]; printing an
    array (its elements, joined) is left outside the embedding. *)
Definition template (prefix : string) (v : JVal) : M string :=
  match v with
  | JPrim p => ret (prefix +:+ primToString p)
  | JError m => ret (prefix +:+ "Error: " +:+ m)
  | JTypeError => stuck
  | JRef l =>
      h ← getHeap;
      match cellAt h l with
      | Some (CObj _ _) => ret (prefix +:+ "[object Object]")
      | _ => stuck
      end
  end.

(** [typeof v] *)
Definition typeOf (v : JVal) : string :=
  match v with
  | JPrim PUndefined => "undefined"
  | JPrim (PBool _) => "boolean"
  | JPrim (PNum _) => "number"
  | JPrim (PStr _) => "string"
  | JPrim PNull | JRef _ | JError _ | JTypeError => "object"
  end.

(** ** The collaborators *)

(** What a service call settles with: a rejection, a primitive, or a
    fresh object. *)
Inductive Reply :=
| Rejects (reason : JVal)
| Resolves (p : Prim)
| ResolvesObject (fields : Fields).

(** The services, the namespace and the configuration constants are not
    part of this module.  No handler run calls one service twice,
    so the reply of each service to its call is a parameter of the run; the
    arguments of the call are on the trace. *)
Record Env := mkEnv {
  insertFile : Reply;
  insertMessage : Reply;
  createNewConversation : Reply;
  getTwoUsersConvoId : Reply;
  NEW_MESSAGE : string;
  CREATE_NEW_MESSAGE : string;
  FIRST_TIME_MESSAGE : string;
  DEFAULT : string
}.

Definition replyOf (env : Env) (svc : Service) : Reply :=
  match svc with
  | InsertFile => insertFile env
  | InsertMessage => insertMessage env
  | CreateNewConversation => createNewConversation env
  | GetTwoUsersConvoId => getTwoUsersConvoId env
  end.

Section Handlers.

Variable env : Env.

(** A service call: the promise it returns. *)
Definition callService (svc : Service) (args : list JVal) : Promise :=
  fun s =>
    let s1 := mkState (heap s) (trace s ++ [EvService svc args (heap s)]) in
    match replyOf env svc with
    | Rejects e => (Rejected e, s1)
    | Resolves p => (Fulfilled (JPrim p), s1)
    | ResolvesObject fs =>
        match alloc (CObj [] fs) s1 with
        | (Normal o, s2) => (Fulfilled o, s2)
        | (_, s2) => (Unmodelled, s2)
        end
    end.

(** [f(args)] for a callback. *)
Definition invoke (f : Callback) (args : list JVal) : M unit :=
  h ← getHeap; record (EvCallback f args h).

(** [if (fn) fn(args)] *)
Definition ifFn (fn : option Callback) (args : list JVal) : M unit :=
  match fn with
  | Some f => invoke f args
  | None => ret tt
  end.

Definition consoleLog (v : JVal) : M unit :=
  record (EvConsoleLog v).

Definition debug (err : JVal) : M unit := record (EvDebug err).

(** [this.nsp.in(channel).emit(event, payload)].  The event keeps the
    channel of this [in]; the namespace may have more rooms selected
    ([deliver]). *)
Definition emit (channel event : string) (payload : JVal) : M unit :=
  h ← getHeap; record (EvEmit channel event payload h).

(** [channels.forEach((channel) => {
       let sockets = Object.values(this.nsp.in(channel).sockets);
       sockets.forEach((s) => { s.join(target); }); })].
    The loop calls no service and touches no object of the heap: it
    calls [in], [sockets] and [join] on the namespace and its sockets.
    The trace keeps the statement as one event, with the channels in the
    order of the [in] calls; what these calls do to the namespace, which
    sockets join and which rooms stay selected, is [joinLoop]. *)
Definition joinAll (channels : list string) (target : string) : M unit :=
  record (EvJoinAll channels target).

(** [arr.map(f)], for an array that stays local to the handler and is
    only read: its elements. *)
Definition arrayMap {B} (arr : JVal) (f : JVal -> M B) : M (list B) :=
  es ← arrayElems arr;
  mapM f es.

(** *** [_newMessageHandler] *)

Definition _newMessageHandler (message : JVal) (fn0 : option Callback) : Promise :=
  (* fn = function (err, msg) {} *)
  let fn := Some (default Noop fn0) in
  asyncFunction (
    sender ← getField message Key.sender;
    m ← getField message Key.message;
    messageText ← getField message Key.messageText;
    createdAt ← getField message Key.createdAt;
    conversationId ← getField message Key.conversationId;
    canReply ← getField message Key.canReply;
    attachment ← getField message Key.attachment;
    broadcastMessage ← newObject
      [ (Key.sender, sender);
        (Key.message, jsOr m messageText);
        (Key.messageText, messageText);
        (Key.createdAt, createdAt);
        (Key.conversationId, conversationId);
        (Key.canReply, jsOr canReply (PBool true));
        (Key.attachment, attachment) ];
    ifFn fn [null; broadcastMessage];;
    consoleLog message;;
    tryCatch
      (a ← getField message Key.attachment;
       (if looseNeqNull a then
          a1 ← getField message Key.attachment;
          newFile ← await (callService InsertFile [a1]);
          a2 ← getField message Key.attachment;
          fileId ← getField newFile Key.id;
          setField a2 Key.id fileId
        else ret tt);;
       s ← getField message Key.sender;
       sender_id ← getField s Key.id;
       conversation_id ← getField message Key.conversationId;
       m' ← getField message Key.message;
       message_text ← getField message Key.messageText;
       a3 ← getField message Key.attachment;
       attachment_id ← (if truthy a3
                        then a4 ← getField message Key.attachment; getField a4 Key.id
                        else ret undefined);
       row ← newObject
         [ (Key.sender_id, sender_id);
           (Key.conversation_id, conversation_id);
           (Key.message, jsOr m' message_text);
           (Key.message_text, message_text);
           (Key.attachment_id, attachment_id) ];
       newMessage ← await (callService InsertMessage [row]);
       newId ← getField newMessage Key.id;
       setField broadcastMessage Key.id newId;;
       cid ← getField broadcastMessage Key.conversationId;
       convoChannel ← template "convo#" cid;
       emit convoChannel (NEW_MESSAGE env) broadcastMessage)
      (fun err =>
         debug err;;
         ifFn fn [JError (DEFAULT env)])
  ).

(** *** [createNewGroupMessageHandler] *)

Definition createNewGroupMessageHandler (data : JVal) (fn : option Callback) : Promise :=
  asyncFunction (
    sender ← getField data Key.sender;
    message ← getField data Key.message;
    messageText ← getField data Key.messageText;
    createdAt ← getField data Key.createdAt;
    canReply ← getField data Key.canReply;
    attachment ← getField data Key.attachment;
    classroomId ← getField data Key.classroomId;
    receivers ← getField data Key.receivers;
    receiverIds ← arrayMap receivers (fun r => getField r Key.id);
    sid ← getField sender Key.id;
    allUserIds ← newArray (sid :: receiverIds);
    tryCatch
      (creator_id ← getField sender Key.id;
       meta ← newObject
         [ (Key.type, JPrim (PStr "group"));
           (Key.creator_id, creator_id);
           (Key.classroom_id, classroomId) ];
       newConvo ← await (callService CreateNewConversation [meta; allUserIds]);
       setField newConvo Key.conversation_name (PStr "New Group");;
       newConvoId ← getField newConvo Key.id;
       newConvoChannel ← template "convo#" newConvoId;
       allUserChannels ← arrayMap allUserIds (fun id => template "user#" id);
       joinAll allUserChannels newConvoChannel;;
       broadcastMessage ← newObject
         [ (Key.sender, sender);
           (Key.message, jsOr message messageText);
           (Key.messageText, messageText);
           (Key.createdAt, createdAt);
           (Key.conversationId, newConvoId);
           (Key.canReply, jsOr canReply (PBool true));
           (Key.attachment, attachment) ];
       ifFn fn [null; broadcastMessage];;
       sender_id ← getField sender Key.id;
       attachment_id ← (if truthy attachment then getField attachment Key.id
                        else ret undefined);
       row ← newObject
         [ (Key.sender_id, sender_id);
           (Key.conversation_id, newConvoId);
           (Key.message, jsOr message messageText);
           (Key.message_text, messageText);
           (Key.attachment_id, attachment_id) ];
       newMessage ← await (callService InsertMessage [row]);
       newId ← getField newMessage Key.id;
       setField broadcastMessage Key.id newId;;
       payload ← newObject [ (Key.newMsg, broadcastMessage); (Key.newConvo, newConvo) ];
       emit newConvoChannel (FIRST_TIME_MESSAGE env) payload)
      (fun err =>
         debug err;;
         ifFn fn [JError (DEFAULT env)])
  ).

(** *** [createNewSingleMessageHandler] *)

Definition createNewSingleMessageHandler (data : JVal) (fn : option Callback) : Promise :=
  asyncFunction (
    sender ← getField data Key.sender;
    message ← getField data Key.message;
    messageText ← getField data Key.messageText;
    createdAt ← getField data Key.createdAt;
    canReply ← getField data Key.canReply;
    attachment ← getField data Key.attachment;
    classroomId ← getField data Key.classroomId;
    receivers ← getField data Key.receivers;
    tryCatch
      (receiverIds ← arrayMap receivers (fun r => getField r Key.id);
       sid ← getField sender Key.id;
       let receiverId0 := default undefined (receiverIds !! 0) in
       convoIdIfExist ← await (callService GetTwoUsersConvoId [sid; receiverId0; classroomId]);
       consoleLog convoIdIfExist;;
       consoleLog (JPrim (PStr (typeOf convoIdIfExist)));;
       (if strictNeqNull convoIdIfExist then
          msg ← newObject
            [ (Key.sender, sender);
              (Key.message, message);
              (Key.messageText, messageText);
              (Key.createdAt, createdAt);
              (Key.conversationId, convoIdIfExist);
              (Key.canReply, canReply);
              (Key.attachment, attachment) ];
          returnPromise (_newMessageHandler msg None)
        else ret tt);;
       sid' ← getField sender Key.id;
       allUserIds ← newArray [sid'; receiverId0];
       creator_id ← getField sender Key.id;
       meta ← newObject
         [ (Key.type, JPrim (PStr "single"));
           (Key.creator_id, creator_id);
           (Key.classroom_id, classroomId) ];
       newConvo ← await (callService CreateNewConversation [meta; allUserIds]);
       newConvoId ← getField newConvo Key.id;
       newConvoChannel ← template "convo#" newConvoId;
       allUserChannels ← arrayMap allUserIds (fun id => template "user#" id);
       joinAll allUserChannels newConvoChannel;;
       broadcastMessage ← newObject
         [ (Key.sender, sender);
           (Key.message, jsOr message messageText);
           (Key.messageText, messageText);
           (Key.createdAt, createdAt);
           (Key.conversationId, newConvoId);
           (Key.canReply, jsOr canReply (PBool true));
           (Key.attachment, attachment) ];
       ifFn fn [null; broadcastMessage];;
       sender_id ← getField sender Key.id;
       attachment_id ← (if truthy attachment then getField attachment Key.id
                        else ret undefined);
       row ← newObject
         [ (Key.sender_id, sender_id);
           (Key.conversation_id, newConvoId);
           (Key.message, jsOr message messageText);
           (Key.message_text, messageText);
           (Key.attachment_id, attachment_id) ];
       newMessage ← await (callService InsertMessage [row]);
       newId ← getField newMessage Key.id;
       setField broadcastMessage Key.id newId;;
       sid'' ← getField sender Key.id;
       senderChannel ← template "user#" sid'';
       r0 ← getFirst receivers;
       rid ← getField r0 Key.id;
       receiverChannel ← template "user#" rid;
       r0' ← getFirst receivers;
       rname ← getField r0' Key.name;
       setField newConvo Key.conversation_name rname;;
       payload1 ← newObject [ (Key.newMsg, broadcastMessage); (Key.newConvo, newConvo) ];
       emit senderChannel (FIRST_TIME_MESSAGE env) payload1;;
       sname ← getField sender Key.name;
       setField newConvo Key.conversation_name sname;;
       payload2 ← newObject [ (Key.newMsg, broadcastMessage); (Key.newConvo, newConvo) ];
       emit receiverChannel (FIRST_TIME_MESSAGE env) payload2)
      (fun err =>
         debug err;;
         ifFn fn [JError (DEFAULT env)])
  ).

(** *** [createNewMessageHandler] *)

Definition createNewMessageHandler (data : JVal) (fn : option Callback) : M unit :=
  receivers ← getField data Key.receivers;
  len ← getField receivers Key.length;
  if strictEqOne len
  then callDetached (createNewSingleMessageHandler data fn)
  else callDetached (createNewGroupMessageHandler data fn).

End Handlers.

(** ** Packets *)

(** A field of a packet that may hold an object. *)
Inductive InVal :=
| IPrim (p : Prim)
| IObj (fs : Fields).

(** The data of a [NEW_MESSAGE] or [CREATE_NEW_MESSAGE] packet, with the
    fields the handlers document: [sender] and each receiver are objects
    ([id], [name], ...), [attachment] is an object when there is one, the
    others are primitives ([undefined] when left out).  [NEW_MESSAGE] reads
    [conversationId]; [CREATE_NEW_MESSAGE] reads [classroomId] and
    [receivers]. *)
Record Packet := mkPacket {
  sender : Fields;
  message : Prim;
  messageText : Prim;
  createdAt : Prim;
  conversationId : Prim;
  canReply : Prim;
  attachment : InVal;
  classroomId : Prim;
  receivers : list Fields
}.

Definition attachmentCells (p : Packet) : list Cell :=
  match attachment p with
  | IObj fs => [CObj [] fs]
  | IPrim _ => []
  end.

Definition attachmentValue (p : Packet) : JVal :=
  match attachment p with
  | IObj _ => JRef (Received 3)
  | IPrim v => JPrim v
  end.

(** The packet as the transport hands it to a handler: a tree of fresh
    objects, the data object first. *)
Definition decode (p : Packet) : Heap :=
  let base := 3 + length (attachmentCells p) in
  mkHeap
    ([ CObj [ (Key.sender, JRef (Received 1));
              (Key.message, JPrim (message p));
              (Key.messageText, JPrim (messageText p));
              (Key.createdAt, JPrim (createdAt p));
              (Key.conversationId, JPrim (conversationId p));
              (Key.canReply, JPrim (canReply p));
              (Key.attachment, attachmentValue p);
              (Key.classroomId, JPrim (classroomId p));
              (Key.receivers, JRef (Received 2)) ] noFields;
       CObj [] (sender p);
       CArr (map (fun i => JRef (Received i)) (seq base (length (receivers p)))) ]
     ++ attachmentCells p
     ++ map (fun fs => CObj [] fs) (receivers p))
    [].

Definition dataOf : JVal := JRef (Received 0).

Definition start (p : Packet) : State := mkState (decode p) [].

(** ** Reading a trace *)

(** [v.k1.k2...] in a heap, [undefined] where the path leaves the objects. *)
Fixpoint readPath (h : Heap) (v : JVal) (path : list Key.t) : JVal :=
  match path with
  | [] => v
  | k :: path' =>
      match v with
      | JRef l =>
          match cellAt h l with
          | Some (CObj own base) => readPath h (getProp k own base) path'
          | _ => undefined
          end
      | _ => undefined
      end
  end.

(** The elements of the array [v]. *)
Definition elemsOf (h : Heap) (v : JVal) : list JVal :=
  match v with
  | JRef l =>
      match cellAt h l with
      | Some (CArr es) => es
      | _ => []
      end
  | _ => []
  end.

Definition isEmit (e : Event) : bool :=
  match e with EvEmit _ _ _ _ => true | _ => false end.

Definition isCallback (e : Event) : bool :=
  match e with EvCallback _ _ _ => true | _ => false end.

Definition isCall (svc : Service) (e : Event) : bool :=
  match e, svc with
  | EvService InsertFile _ _, InsertFile
  | EvService InsertMessage _ _, InsertMessage
  | EvService CreateNewConversation _ _, CreateNewConversation
  | EvService GetTwoUsersConvoId _ _, GetTwoUsersConvoId => true
  | _, _ => false
  end.

Definition emits (t : list Event) : list Event := List.filter isEmit t.
Definition callbacks (t : list Event) : list Event := List.filter isCallback t.
Definition calls (svc : Service) (t : list Event) : list Event :=
  List.filter (isCall svc) t.

Definition isDebug (e : Event) : bool :=
  match e with EvDebug _ => true | _ => false end.

(** A run failed when its [catch] block was entered ([debug(err)]). *)
Definition failed (t : list Event) : bool := existsb isDebug t.

(** The event of [if (fn) fn(args)]. *)
Definition ackEvents (fn : option Callback) (args : list JVal) (h : Heap)
  : list Event :=
  match fn with
  | Some f => [EvCallback f args h]
  | None => []
  end.

(** The message representation an event carries: the second argument of
    an acknowledgment, the payload of a broadcast or its [newMsg]. *)
Definition messageIn (e : Event) : option (JVal * Heap) :=
  match e with
  | EvCallback _ [_; m] h => Some (m, h)
  | EvEmit _ _ payload h =>
      match readPath h payload [Key.newMsg] with
      | JRef l => Some (JRef l, h)
      | _ => Some (payload, h)
      end
  | _ => None
  end.

(** Its [canReply]. *)
Definition canReplyIn (e : Event) : option JVal :=
  match messageIn e with
  | Some (m, h) => Some (readPath h m [Key.canReply])
  | None => None
  end.

(** The field [k] of the first argument of each call of [svc]. *)
Definition argField (svc : Service) (k : Key.t) (t : list Event) : list JVal :=
  map (fun e =>
         match e with
         | EvService _ (a :: _) h => readPath h a [k]
         | _ => undefined
         end)
      (calls svc t).

Definition resolvesObject (r : Reply) : bool :=
  match r with
  | ResolvesObject _ => true
  | _ => false
  end.

(** [newConvo.id], for what [createNewConversation] resolved with. *)
Definition createdConvoId (env : Env) : Prim :=
  match createNewConversation env with
  | ResolvesObject fs => fs Key.id
  | _ => PUndefined
  end.

(** [newMessage.id], for what [insertMessage] resolved with. *)
Definition persistedId (env : Env) : Prim :=
  match insertMessage env with
  | ResolvesObject fs => fs Key.id
  | _ => PUndefined
  end.

(** The trace of a handler run on a packet. *)
Definition traceOf {R} (run : State -> R * State) (p : Packet) : list Event :=
  trace (snd (run (start p))).



(** The callback calls of a trace, each with its callee and arguments,
    and those that reach a client. *)
Definition acks (t : list Event) : list (Callback * list JVal) :=
  map (fun e => match e with EvCallback f args _ => (f, args) | _ => (Noop, []) end)
      (callbacks t).

Definition isClient (f : Callback) : bool :=
  match f with AckOf _ => true | Noop => false end.

Definition clientAcks (t : list Event) : list (Callback * list JVal) :=
  List.filter (fun fa => isClient (fst fa)) (acks t).

Definition rejects (r : Reply) : bool :=
  match r with Rejects _ => true | _ => false end.

Definition called (svc : Service) (t : list Event) : bool :=
  existsb (isCall svc) t.

(** The attachment resolver or the message store was called and
    rejected. *)
Definition rejection (env : Env) (t : list Event) : bool :=
  (called InsertFile t && rejects (insertFile env))
  || (called InsertMessage t && rejects (insertMessage env)).


(** The callback of the handler that persists the message of a
    [CREATE_NEW_MESSAGE]: the function of the packet when a conversation
    was started, the empty function of [_newMessageHandler] when the send
    was handed to it. *)
Definition persistingCallback (f : Callback) (t : list Event) : Callback :=
  if called CreateNewConversation t then f else Noop.

(** ** Sample packets and environments *)

Definition alice : Fields := fieldsOf [(Key.id, PNum 1); (Key.name, PStr "A")].
Definition bob : Fields := fieldsOf [(Key.id, PNum 2); (Key.name, PStr "B")].
Definition carol : Fields := fieldsOf [(Key.id, PNum 3); (Key.name, PStr "C")].

(** A text message of [alice] to [to], with [canReply: false]. *)
Definition textTo (to : list Fields) : Packet :=
  mkPacket alice (PStr "hi") PUndefined (PStr "2020-05-01") (PNum 7)
           (PBool false) (IPrim PUndefined) (PNum 5) to.

(** The same with an attachment that was not stored yet (it has no [id]). *)
Definition fileTo (to : list Fields) : Packet :=
  mkPacket alice (PStr "hi") PUndefined (PStr "2020-05-01") (PNum 7)
           (PBool false) (IObj (fieldsOf [(Key.name, PStr "f.png")])) (PNum 5) to.

(** Every service resolves; [lookup] is what [getTwoUsersConvoId] finds. *)
Definition envWith (lookup : Prim) : Env :=
  mkEnv (ResolvesObject (fieldsOf [(Key.id, PNum 50)]))
        (ResolvesObject (fieldsOf [(Key.id, PNum 100)]))
        (ResolvesObject (fieldsOf [(Key.id, PNum 9)]))
        (Resolves lookup)
        "NEW_MESSAGE" "CREATE_NEW_MESSAGE" "FIRST_TIME_MESSAGE"
        "Something went wrong".

(** The same, but [insertMessage] rejects. *)
Definition envDown (lookup : Prim) : Env :=
  mkEnv (ResolvesObject (fieldsOf [(Key.id, PNum 50)]))
        (Rejects (JError "ER_CON_COUNT_ERROR"))
        (ResolvesObject (fieldsOf [(Key.id, PNum 9)]))
        (Resolves lookup)
        "NEW_MESSAGE" "CREATE_NEW_MESSAGE" "FIRST_TIME_MESSAGE"
        "Something went wrong".

(** [CREATE_NEW_MESSAGE] with an acknowledgment function, and [NEW_MESSAGE]
    with one. *)
Definition client : Callback := AckOf 0.

Definition createRun (env : Env) (p : Packet) : list Event :=
  traceOf (createNewMessageHandler env dataOf (Some client)) p.

Definition sendRun (env : Env) (p : Packet) : list Event :=
  traceOf (_newMessageHandler env dataOf (Some client)) p.

(** ** More readers of a trace *)

(** Every message representation in [t] carries the body, the text, the
    date and the sender of the packet [p]. *)
Definition carriesPacket (p : Packet) (t : list Event) : Prop :=
  Forall (fun e => forall m h, messageIn e = Some (m, h) ->
     readPath h m [Key.message]
     = jsOr (JPrim (message p)) (JPrim (messageText p)) /\
     readPath h m [Key.messageText] = JPrim (messageText p) /\
     readPath h m [Key.createdAt] = JPrim (createdAt p) /\
     forall k, readPath h m [Key.sender; k] = JPrim (sender p k)) t.

(** Every call of [insertMessage] in [t] has one argument, a row with the
    sender, the body and the text of the packet [p]. *)
Definition persistsPacket (p : Packet) (t : list Event) : Prop :=
  Forall (fun e => forall args h, e = EvService InsertMessage args h ->
     exists row,
       args = [row] /\
       readPath h row [Key.sender_id] = JPrim (sender p Key.id) /\
       readPath h row [Key.message]
       = jsOr (JPrim (message p)) (JPrim (messageText p)) /\
       readPath h row [Key.message_text] = JPrim (messageText p)) t.

Definition isJoin (e : Event) : bool :=
  match e with EvJoinAll _ _ => true | _ => false end.

Definition joins (t : list Event) : list Event := List.filter isJoin t.

Definition isUnhandled (e : Event) : bool :=
  match e with EvUnhandledRejection _ => true | _ => false end.

Definition nonCallbacks (t : list Event) : list Event :=
  List.filter (fun e => negb (isCallback e)) t.

Definition isObject (v : InVal) : bool :=
  match v with IObj _ => true | IPrim _ => false end.

(** The reply is a value whose properties can be read: anything but a
    rejection, [undefined] and [null]. *)
Definition resolvesValue (r : Reply) : bool :=
  match r with
  | Rejects _ => false
  | Resolves p => negb (nullishPrim p)
  | ResolvesObject _ => true
  end.

(** The conversation store was called, for a lookup or for a new
    conversation, and rejected. *)
Definition refusal (env : Env) (t : list Event) : bool :=
  (called GetTwoUsersConvoId t && rejects (getTwoUsersConvoId env))
  || (called CreateNewConversation t && rejects (createNewConversation env)).

(** The attachment, which came with the fields [fa], is handed to
    [insertFile] as it came; [insertMessage] gets the [id] of the stored
    file [ff]; the acknowledgment shows the attachment as it came, and a
    broadcast shows the same object with the [id] of the file. *)
Definition storesAttachment (fa ff : Fields) (t : list Event) : Prop :=
  exists a h0 row h1,
    calls InsertFile t = [EvService InsertFile [a] h0] /\
    (forall k, readPath h0 a [k] = JPrim (fa k)) /\
    calls InsertMessage t = [EvService InsertMessage [row] h1] /\
    readPath h1 row [Key.attachment_id] = JPrim (ff Key.id) /\
    Forall (fun e => forall f m h, e = EvCallback f [null; m] h ->
              readPath h m [Key.attachment] = a /\
              readPath h a [Key.id] = JPrim (fa Key.id)) t /\
    Forall (fun e => forall c ev m h, e = EvEmit c ev m h ->
              readPath h m [Key.attachment] = a /\
              readPath h a [Key.id] = JPrim (ff Key.id) /\
              forall k, k <> Key.id -> readPath h a [k] = JPrim (fa k)) t.

(** [createNewConversation] is called once in [t], for a conversation of
    the given [type] and [members], created by the sender of [p] in the
    classroom of [p]. *)
Definition describesConversation (p : Packet) (type : string)
    (members : list JVal) (t : list Event) : Prop :=
  exists meta ids h,
    calls CreateNewConversation t
    = [EvService CreateNewConversation [meta; ids] h] /\
    readPath h meta [Key.type] = JPrim (PStr type) /\
    readPath h meta [Key.creator_id] = JPrim (sender p Key.id) /\
    readPath h meta [Key.classroom_id] = JPrim (classroomId p) /\
    elemsOf h ids = members.

(** ** The connection *)

(** [this._newMessageHandler.bind(this)] and
    [this.createNewMessageHandler.bind(this)]. *)
Inductive Listener :=
| NewMessageListener
| CreateNewMessageListener.

(** What [init] does to its socket and to the user service, in order. *)
Inductive SocketEvent :=
| SockJoin (channel : string)
| SockOn (event : string) (listener : Listener)
| SockGetUserConversationIds (userId : JVal)
| SockUnhandledRejection (err : JVal).

(** What [getUserConversationIds] settles with: a rejection, an array of
    ids, or a value that is no array. *)
Inductive IdsReply :=
| IdsRejects (reason : JVal)
| IdsResolves (arr : list Prim)
| IdsResolvesOther (p : Prim).

(** The socket of a connection: [socket.user] is set by the
    authentication that ran before. *)
Record Socket := mkSocket {
  user : InVal
}.

(** A connection while its handlers are set up: what happened so far, and
    the promises that have a [then] reaction waiting, each given by what
    it settles with. *)
Record Conn := mkConn {
  log : list SocketEvent;
  waiting : list IdsReply
}.

Definition B (A : Type) : Type := Conn -> Completion A * Conn.

Definition retB {A} (a : A) : B A := fun c => (Normal a, c).

Definition bindB {A A'} (m : B A) (k : A -> B A') : B A' :=
  fun c =>
    match m c with
    | (Normal a, c') => k a c'
    | (Returned p, c') => (Returned p, c')
    | (Thrown e, c') => (Thrown e, c')
    | (Stuck, c') => (Stuck, c')
    end.

#[global] Instance B_ret : MRet B := @retB.
#[global] Instance B_bind : MBind B := fun A A' k m => bindB m k.

Definition throwB {A} (e : JVal) : B A := fun c => (Thrown e, c).

Definition note (e : SocketEvent) : B unit :=
  fun c => (Normal tt, mkConn (log c ++ [e]) (waiting c)).

(** [promise.then(reaction)]: the reaction runs when the promise has
    settled, after the code that is running now. *)
Definition thenLater (promise : IdsReply) : B unit :=
  fun c => (Normal tt, mkConn (log c) (waiting c ++ [promise])).

Fixpoint forEachB {A} (f : A -> B unit) (l : list A) : B unit :=
  match l with
  | [] => retB tt
  | a :: l' => bindB (f a) (fun _ => forEachB f l')
  end.

Section Connection.

Variable env : Env.
Variable getUserConversationIds : IdsReply.
Variable socket : Socket.

(** [this.socket.join(channel)] *)
Definition socketJoin (channel : string) : B unit := note (SockJoin channel).

(** [this.socket.on(event, listener)] *)
Definition socketOn (event : string) (listener : Listener) : B unit :=
  note (SockOn event listener).

(** [this.socket.user.id]: reading [id] of [undefined] or [null] throws,
    and another primitive has no [id]. *)
Definition socketUserId : B Prim :=
  match user socket with
  | IObj fs => retB (fs Key.id)
  | IPrim p => if nullishPrim p then throwB JTypeError else retB PUndefined
  end.

Definition joinUserChannel : B unit :=
  userId ← socketUserId;
  socketJoin ("user#" +:+ primToString userId).

(** [(arr) => { arr.forEach((id) => { this.socket.join(`convo#${id}`); }); }],
    the reaction of [joinConvoChannels], on what the promise settled
    with.  A rejection has no reaction, and a value that is no array has
    no [forEach]. *)
Definition joinEach (settled : IdsReply) : B unit :=
  match settled with
  | IdsRejects e => throwB e
  | IdsResolves arr =>
      forEachB (fun id => socketJoin ("convo#" +:+ primToString id)) arr
  | IdsResolvesOther _ => throwB JTypeError
  end.

Definition joinConvoChannels : B unit :=
  userId ← socketUserId;
  note (SockGetUserConversationIds (JPrim userId));;
  thenLater getUserConversationIds.

Definition init : B unit :=
  joinUserChannel;;
  joinConvoChannels;;
  socketOn (NEW_MESSAGE env) NewMessageListener;;
  socketOn (CREATE_NEW_MESSAGE env) CreateNewMessageListener.

(** [new MessageNamespace(socket, nsp).init()] *)
Definition handleEvents : B unit := init.

(** The reactions that wait run once the synchronous code is over; the
    promise of a reaction that throws is rejected, and nobody handles
    it. *)
Fixpoint runReactions (rs : list IdsReply) (sofar : list SocketEvent)
  : list SocketEvent :=
  match rs with
  | [] => sofar
  | r :: rs' =>
      match joinEach r (mkConn sofar []) with
      | (Thrown e, c) => runReactions rs' (log c ++ [SockUnhandledRejection e])
      | (_, c) => runReactions rs' (log c)
      end
  end.

(** A connection, from [handleEvents] to the end of its reactions: how
    [handleEvents] completed, and everything that happened. *)
Definition connect : Completion unit * list SocketEvent :=
  let (r, c) := handleEvents (mkConn [] []) in
  (r, runReactions (waiting c) (log c)).

End Connection.

Definition isOn (e : SocketEvent) : bool :=
  match e with SockOn _ _ => true | _ => false end.

Definition isSockUnhandled (e : SocketEvent) : bool :=
  match e with SockUnhandledRejection _ => true | _ => false end.

(** The channels a connection joined. *)
Fixpoint joined (l : list SocketEvent) : list string :=
  match l with
  | [] => []
  | SockJoin c :: l' => c :: joined l'
  | _ :: l' => joined l'
  end.

(** What happens after the four steps of [init], by what the list of
    the conversations settled with. *)
Definition afterInit (ids : IdsReply) : list SocketEvent :=
  match ids with
  | IdsRejects e => [SockUnhandledRejection e]
  | IdsResolves arr => map (fun id => SockJoin ("convo#" +:+ primToString id)) arr
  | IdsResolvesOther _ => [SockUnhandledRejection JTypeError]
  end.

(** ** The database configuration *)

Module Knexfile.

(** [process.env]: the variables that are set, each with its string. *)
Definition ProcessEnv := string -> option string.

(** [process.env.NAME] *)
Definition envVar (penv : ProcessEnv) (name : string) : JVal :=
  match penv name with
  | Some s => JPrim (PStr s)
  | None => undefined
  end.

Record Connection := mkConnection {
  host : JVal;
  user : JVal;
  password : JVal;
  database : JVal;
  charset : string
}.

Record Pool := mkPool {
  min : Z;
  max : Z
}.

(** The settings of one environment; [Empty] is [{}]. *)
Inductive Settings :=
| Configured (client : string) (connection : Connection) (pool : Pool)
| Empty.

Record Exports := mkExports {
  development : Settings;
  staging : Settings;
  production : Settings
}.

Definition exports (penv : ProcessEnv) : Exports :=
  mkExports
    (Configured "mysql"
       (mkConnection
          (jsOr (envVar penv "DATABASE_HOST") (JPrim (PStr "localhost")))
          (jsOr (envVar penv "DATABASE_USERNAME") (JPrim (PStr "root")))
          (jsOr (envVar penv "DATABASE_PASSWORD") (JPrim (PStr "password")))
          (jsOr (envVar penv "DATABASE_NAME") (JPrim (PStr "remind_clone")))
          "utf8mb4")
       (mkPool 2 10))
    Empty
    Empty.

(** The connection of the settings, when they have one. *)
Definition connectionOf (s : Settings) : option Connection :=
  match s with
  | Configured _ c _ => Some c
  | Empty => None
  end.

(** [v] is a string that is not empty. *)
Definition nonEmpty (v : JVal) : Prop :=
  exists s, v = JPrim (PStr s) /\ s <> "".

(** What [process.env.NAME || fallback] is: the variable when it is set
    to a string that is not empty, the fallback otherwise. *)
Definition setOr (penv : ProcessEnv) (name fallback : string) : JVal :=
  match penv name with
  | Some s => if String.eqb s "" then JPrim (PStr fallback) else JPrim (PStr s)
  | None => JPrim (PStr fallback)
  end.

End Knexfile.

(** ** More sample packets and environments *)

(** The conversation store rejects a new conversation. *)
Definition envRefusing (lookup : Prim) : Env :=
  mkEnv (ResolvesObject (fieldsOf [(Key.id, PNum 50)]))
        (ResolvesObject (fieldsOf [(Key.id, PNum 100)]))
        (Rejects (JError "ER_LOCK_DEADLOCK"))
        (Resolves lookup)
        "NEW_MESSAGE" "CREATE_NEW_MESSAGE" "FIRST_TIME_MESSAGE"
        "Something went wrong".

(** A text that came as [messageText] only. *)
Definition textOnlyTo (to : list Fields) : Packet :=
  mkPacket alice PUndefined (PStr "hi") (PStr "2020-05-01") (PNum 7)
           PUndefined (IPrim PUndefined) (PNum 5) to.

(** The socket of [alice], and a socket that was not authenticated. *)
Definition aliceSocket : Socket := mkSocket (IObj alice).
Definition anonymousSocket : Socket := mkSocket (IPrim PUndefined).

(** ** The namespace *)

(** The handlers call [in], [sockets], [join] and [emit] on one namespace
    object, which they share with every other run.  The object is
    socket.io's, version 2 (its [sockets] is a table that
    [Object.values] lists, and [in] returns the namespace itself); what
    follows is what that library does with these calls. *)

Definition SocketId := nat.

(** [sockets]: the connected sockets of the namespace.  [rooms]: the
    rooms selected by [in] since the last broadcast.  [members]: the
    sockets of each room, as the adapter of the namespace keeps them. *)
Record Namespace := mkNamespace {
  sockets : list SocketId;
  rooms : list string;
  members : string -> list SocketId
}.

(** [if (!~this.rooms.indexOf(name)) this.rooms.push(name)] *)
Definition select (name : string) (selected : list string) : list string :=
  if existsb (String.eqb name) selected then selected else (selected ++ [name])%list.

(** [nsp.in(name)]: the room is selected, and the namespace is
    returned. *)
Definition nspIn (name : string) (n : Namespace) : Namespace :=
  mkNamespace (sockets n) (select name (rooms n)) (members n).

(** [s.join(room)]: the adapter adds the socket to the room, which holds
    a socket once. *)
Definition joinRoom (s : SocketId) (room : string) (n : Namespace) : Namespace :=
  mkNamespace (sockets n) (rooms n)
    (fun name =>
       if String.eqb name room
       then (if existsb (Nat.eqb s) (members n name) then members n name
             else (members n name ++ [s])%list)
       else members n name).

(** The loop that [EvJoinAll channels target] stands for: for each
    channel, [this.nsp.in(channel)] selects the channel and returns the
    namespace, whose [sockets] are all the connected sockets, and each of
    them joins [target]. *)
Definition joinLoop (channels : list string) (target : string) (n : Namespace)
  : Namespace :=
  fold_left
    (fun n channel =>
       let nsp := nspIn channel n in
       fold_left (fun n s => joinRoom s target n) (sockets nsp) nsp)
    channels n.

(** The event names that a namespace keeps to itself: [emit] with one of
    them calls the listeners of the namespace and broadcasts nothing. *)
Definition reserved (event : string) : bool :=
  existsb (String.eqb event) ["connect"; "connection"; "newListener"].

(** The adapter sends a packet to a socket of a room when the socket is
    connected and did not get the packet through another room. *)
Definition sendTo (connected sent : list SocketId) (s : SocketId) : list SocketId :=
  if existsb (Nat.eqb s) connected && negb (existsb (Nat.eqb s) sent)
  then (sent ++ [s])%list else sent.

(** [adapter.broadcast(packet, { rooms })]: the sockets that get the
    packet, room by room; with no room selected, every socket. *)
Definition broadcast (n : Namespace) (selected : list string) : list SocketId :=
  match selected with
  | [] => sockets n
  | _ =>
      fold_left
        (fun sent room => fold_left (sendTo (sockets n)) (members n room) sent)
        selected []
  end.

(** One broadcast: the rooms that were selected, the sockets that got
    the packet, and the [EvEmit] that made it. *)
Record Delivery := mkDelivery {
  selected : list string;
  recipients : list SocketId;
  emitted : Event
}.

(** The calls of a trace, applied to the namespace in order: the
    namespace after them, and the broadcasts they made.
    [this.nsp.in(channel).emit(event, payload)] selects [channel],
    broadcasts to everything selected, and selects nothing any more. *)
Fixpoint deliver (n : Namespace) (t : list Event) : Namespace * list Delivery :=
  match t with
  | [] => (n, [])
  | EvJoinAll channels target :: t' => deliver (joinLoop channels target n) t'
  | EvEmit channel event payload h :: t' =>
      let n1 := nspIn channel n in
      if reserved event then deliver n1 t'
      else
        let d := mkDelivery (rooms n1) (broadcast n1 (rooms n1))
                   (EvEmit channel event payload h) in
        let (n2, ds) := deliver (mkNamespace (sockets n1) [] (members n1)) t' in
        (n2, d :: ds)
  | _ :: t' => deliver n t'
  end.

(** The name of the conversation in the payload of a broadcast. *)
Definition nameSent (d : Delivery) : JVal :=
  match emitted d with
  | EvEmit _ _ payload h => readPath h payload [Key.newConvo; Key.conversation_name]
  | _ => undefined
  end.

(** Three connected sockets: one of [alice], in [user#1], one of [bob],
    in [user#2], and one of [carol], in [user#3]; no room is selected. *)
Definition lobby : Namespace :=
  mkNamespace [0; 1; 2] []
    (fun room =>
       if String.eqb room "user#1" then [0]
       else if String.eqb room "user#2" then [1]
       else if String.eqb room "user#3" then [2]
       else []).


(** ** Unfolding the operations under [cbn] *)

Arguments asyncFunction body s /.
Arguments bind {A B} m k s /.
Arguments M_bind {A B} _ _ _ /.
Arguments mbind {M _ A B} _ _ /.
Arguments ret {A} a /.
Arguments M_ret {A} _ _ /.
Arguments mret {M _ A} _ /.
Arguments tryCatch {A} body handler s /.
Arguments await p s /.
Arguments returnPromise {A} p s /.
Arguments record e /.
Arguments getHeap /.
Arguments throw {A} e /.
Arguments stuck {A} /.
Arguments alloc c s /.
Arguments newObject ps /.
Arguments newArray es /.
Arguments callService env svc args s /.
Arguments callDetached p /.
Arguments getField !v k /.
Arguments setField !v k x /.
Arguments getFirst !v /.
Arguments arrayElems !v /.
Arguments arrayMap {B} arr f /.
Arguments template prefix !v /.
Arguments invoke f args /.
Arguments consoleLog v /.
Arguments debug err /.
Arguments emit channel event payload /.
Arguments joinAll channels target /.
Arguments traceOf {R} run p /.
Arguments ifFn : simpl never.
Arguments ackEvents : simpl never.
Arguments truthyPrim : simpl never.
Arguments jsOr : simpl never.
Arguments typeOf : simpl never.
Arguments strictEqOne : simpl never.
Arguments readPath : simpl never.
Arguments elemsOf : simpl never.
Arguments primToString : simpl never.

(** * Properties *)

(** ** Loops over the receivers *)

Lemma receivers_in_heap (rs : list Fields) (pre : list Cell) i fs :
  rs !! i = Some fs ->
  ((pre ++ map (fun fs => CObj [] fs) rs)%list) !! (length pre + i)
  = Some (CObj [] fs).
Proof.
  intros H. induction pre as [|c pre IH]; cbn; [|exact IH].
  revert i H.
  induction rs as [|r rs IH]; intros [|i] H; cbn in *; try discriminate.
  - now inversion H.
  - now apply IH.
Qed.

Lemma mapM_receiver_ids (rs : list Fields) (recv : list Cell) (base : nat) al tr :
  (forall i fs, rs !! i = Some fs -> recv !! (base + i) = Some (CObj [] fs)) ->
  mapM (fun r => getField r Key.id)
       (map (fun i => JRef (Received i)) (seq base (length rs)))
       (mkState (mkHeap recv al) tr)
  = (Normal (map (fun fs : Fields => JPrim (fs Key.id)) rs),
     mkState (mkHeap recv al) tr).
Proof.
  revert base.
  induction rs as [|r rs IH]; intros base Hrecv; [reflexivity|].
  cbn [length seq map mapM].
  assert (H0 : recv !! base = Some (CObj [] r)).
  { rewrite <- (Nat.add_0_r base). now apply Hrecv. }
  cbn. rewrite H0. cbn.
  rewrite (IH (S base)); [reflexivity|].
  intros i fs Hi. replace (S base + i) with (base + S i) by lia. now apply Hrecv.
Qed.

Lemma mapM_template prefix (g : Fields -> Prim) (rs : list Fields) s :
  mapM (fun id => template prefix id) (map (fun fs => JPrim (g fs)) rs) s
  = (Normal (map (fun fs => prefix +:+ primToString (g fs)) rs), s).
Proof.
  induction rs as [|r rs IH]; [reflexivity|].
  cbn [map mapM]. cbn. now rewrite IH.
Qed.

(** ** Calling back *)

Lemma ifFn_run fn args s :
  ifFn fn args s
  = (Normal tt, mkState (heap s) (trace s ++ ackEvents fn args (heap s))).
Proof.
  unfold ifFn, ackEvents. destruct fn as [f|]; cbn; [reflexivity|].
  rewrite app_nil_r. now destruct s.
Qed.

(** ** The operators *)

Lemma truthyPrim_nullish p : nullishPrim p = true -> truthyPrim p = false.
Proof. now destruct p. Qed.

Lemma nullishPrim_truthy p : truthyPrim p = true -> nullishPrim p = false.
Proof. now destruct p. Qed.

Lemma isNullPrim_neq p : p <> PNull -> isNullPrim p = false.
Proof. destruct p; cbn; congruence. Qed.

Lemma strictEqOne_of_nat (n : nat) :
  strictEqOne (JPrim (PNum (Z.of_nat n))) = Nat.eqb n 1.
Proof.
  unfold strictEqOne.
  destruct (Z.eqb_spec (Z.of_nat n) 1), (Nat.eqb_spec n 1); auto; lia.
Qed.




(** ** Running a handler on a packet *)

(** The side condition of [mapM_receiver_ids]: the receivers follow the
    three or four cells at the front of the decoded packet. *)
Ltac recv_side :=
  let i := fresh "i" in
  let fs := fresh "fs" in
  let H := fresh "H" in
  intros i fs H;
  first [ exact (receivers_in_heap _ [_; _; _] i fs H)
        | exact (receivers_in_heap _ [_; _; _; _] i fs H) ].

(** The tactics below run a handler inside a hypothesis [H : t = run],
    so that the run is simplified once however often the statement
    mentions its trace. *)

(** Where the run of [t] waits: a callback, a loop over the receivers, or
    a decision that hangs on the packet or on a reply. *)
Ltac stuck_at t :=
  lazymatch t with
  | ifFn _ _ _ => t
  | mapM _ _ _ => t
  | nullishPrim _ => t
  | truthyPrim _ => t
  | isNullPrim _ => t
  | match ?x with Rejects _ => _ | Resolves _ => _ | ResolvesObject _ => _ end => t
  | trace ?s => stuck_at s
  | snd ?s => stuck_at s
  | match ?a with pair _ _ => _ end => stuck_at a
  | match ?a with Normal _ => _ | Returned _ => _ | Thrown _ => _ | Stuck => _ end =>
      stuck_at a
  | match ?a with Fulfilled _ => _ | Rejected _ => _ | Unmodelled => _ end =>
      stuck_at a
  | (if ?b then _ else _) => stuck_at b
  | negb ?b => stuck_at b
  | ?f _ => stuck_at f
  | _ => t
  end.

Ltac js_step H :=
  lazymatch type of H with
  | _ = ?rhs =>
      let h := stuck_at rhs in
      lazymatch h with
      | ifFn _ _ _ => rewrite ifFn_run in H
      | mapM _ _ _ =>
          first [ rewrite mapM_template in H
                | rewrite mapM_receiver_ids in H by recv_side ]
      | nullishPrim ?x =>
          first [ rewrite (nullishPrim_truthy x) in H by assumption
                | let E := fresh "E" in destruct (nullishPrim x) eqn:E ]
      | truthyPrim ?x =>
          first [ rewrite (truthyPrim_nullish x) in H by assumption
                | let E := fresh "E" in destruct (truthyPrim x) eqn:E ]
      | isNullPrim ?x =>
          first [ rewrite (isNullPrim_neq x) in H by assumption
                | let E := fresh "E" in destruct (isNullPrim x) eqn:E ]
      | match ?x with Rejects _ => _ | Resolves _ => _ | ResolvesObject _ => _ end =>
          is_var x; destruct x
      end
  end.

Ltac js_init H :=
  cbv delta [traceOf createNewMessageHandler createNewSingleMessageHandler
             createNewGroupMessageHandler _newMessageHandler
             start decode attachmentValue attachmentCells dataOf] in H.

(** Whether there is a function to call back shows in the trace only. *)
Ltac js_fn H :=
  try match type of H with
      | context [ackEvents ?fn _ _] => is_var fn; destruct fn as [?|]
      end;
  cbv delta [ackEvents] in H; cbn in H.

Ltac js_run H :=
  js_init H; cbn in H; repeat (js_step H; cbn in H); js_fn H.

(** Name the trace of the statement and the equation that defines it. *)
Ltac js_trace t H :=
  intros t;
  let b := eval cbv delta [t] in t in
  assert (H : t = b) by reflexivity;
  clearbody t.

Ltac trace_simpl :=
  unfold rejection, called, clientAcks, acks, emits, calls, callbacks, failed,
    argField;
  cbn [List.filter existsb map isEmit isCall isDebug isCallback isClient
       rejects fst app orb andb].

(** The fields of a packet and of an environment given by its parts. *)
Ltac env_fields :=
  unfold persistedId, createdConvoId, resolvesObject;
  cbn [insertFile insertMessage createNewConversation getTwoUsersConvoId
       NEW_MESSAGE CREATE_NEW_MESSAGE FIRST_TIME_MESSAGE DEFAULT
       sender message messageText createdAt conversationId canReply
       attachment classroomId receivers] in *.


(** ** The namespace *)

Arguments select : simpl never.
Arguments joinLoop : simpl never.
Arguments broadcast : simpl never.
Arguments reserved : simpl never.

Lemma In_select_same name selected : In name (select name selected).
Proof.
  unfold select. destruct (existsb (String.eqb name) selected) eqn:E.
  - apply existsb_exists in E. destruct E as (x & Hx & Heq).
    apply String.eqb_eq in Heq. now subst x.
  - apply in_or_app. right. now left.
Qed.

Lemma In_select_more name selected x : In x selected -> In x (select name selected).
Proof.
  unfold select. destruct (existsb (String.eqb name) selected); [tauto|].
  intros H. apply in_or_app. now left.
Qed.

Lemma select_nil name : select name [] = [name].
Proof. reflexivity. Qed.

Lemma joinSockets_frame target ss n :
  let n' := fold_left (fun n s => joinRoom s target n) ss n in
  sockets n' = sockets n /\ rooms n' = rooms n /\
  (forall room s, In s (members n room) -> In s (members n' room)) /\
  (forall s, In s ss -> In s (members n' target)).
Proof.
  revert n. induction ss as [|a ss IH]; intros n; cbn.
  - repeat split; tauto.
  - destruct (IH (joinRoom a target n)) as (Hs & Hr & Hm & Ht).
    cbn in Hs, Hr. repeat split; [exact Hs | exact Hr | |].
    + intros room s Hin. apply Hm. cbn.
      destruct (String.eqb room target); [|exact Hin].
      destruct (existsb (Nat.eqb a) (members n room)); [exact Hin|].
      apply in_or_app. now left.
    + intros s [->|Hin]; [|now apply Ht].
      apply Hm. cbn. rewrite String.eqb_refl.
      destruct (existsb (Nat.eqb s) (members n target)) eqn:E.
      * apply existsb_exists in E. destruct E as (x & Hx & Heq).
        apply Nat.eqb_eq in Heq. now subst x.
      * apply in_or_app. right. now left.
Qed.

Lemma joinLoop_frame channels target n :
  let n' := joinLoop channels target n in
  sockets n' = sockets n /\
  rooms n' = fold_left (fun selected c => select c selected) channels (rooms n) /\
  (forall room s, In s (members n room) -> In s (members n' room)) /\
  (channels <> [] -> forall s, In s (sockets n) -> In s (members n' target)).
Proof.
  unfold joinLoop. revert n.
  induction channels as [|c channels IH]; intros n; cbn.
  - repeat split; tauto.
  - pose proof (joinSockets_frame target (sockets n) (nspIn c n)) as Hj.
    cbn in Hj. destruct Hj as (Hs1 & Hr1 & Hm1 & Ht1).
    match goal with
    | |- context [fold_left _ channels ?m] =>
        destruct (IH m) as (Hs & Hr & Hm & Ht); set (n1 := m) in *
    end.
    cbn in Hs, Hr, Hm, Ht.
    repeat split.
    + now rewrite Hs, Hs1.
    + now rewrite Hr, Hr1.
    + intros room s Hin. apply Hm. now apply Hm1.
    + intros _ s Hin. apply Hm. now apply Ht1.
Qed.

Lemma sendTo_frame connected ids sent :
  let sent' := fold_left (sendTo connected) ids sent in
  (forall s, In s sent -> In s sent') /\
  (forall s, In s ids -> In s connected -> In s sent') /\
  (forall s, In s sent' -> In s sent \/ (In s ids /\ In s connected)).
Proof.
  revert sent. induction ids as [|a ids IH]; intros sent; cbn.
  - repeat split; tauto.
  - destruct (IH (sendTo connected sent a)) as (Hk & Ha & Hb).
    assert (Hstep : forall s, In s (sendTo connected sent a)
                              <-> In s sent \/ (s = a /\ In s connected)).
    { intros s. unfold sendTo.
      destruct (existsb (Nat.eqb a) connected) eqn:Ec;
        destruct (existsb (Nat.eqb a) sent) eqn:Es; cbn.
      - apply existsb_exists in Es. destruct Es as (x & Hx & Heq).
        apply Nat.eqb_eq in Heq. subst x. split; [tauto|].
        intros [H|[-> _]]; assumption.
      - apply existsb_exists in Ec. destruct Ec as (x & Hx & Heq).
        apply Nat.eqb_eq in Heq. subst x. rewrite in_app_iff. cbn.
        split; [intros [H|[->|[]]]; tauto | intros [H|[-> _]]; tauto].
      - split; [tauto|]. intros [H|[-> Hc]]; [exact H|].
        exfalso. apply Bool.not_true_iff_false in Ec. apply Ec.
        apply existsb_exists. exists a. split; [exact Hc | apply Nat.eqb_refl].
      - split; [tauto|]. intros [H|[-> Hc]]; [exact H|].
        exfalso. apply Bool.not_true_iff_false in Ec. apply Ec.
        apply existsb_exists. exists a. split; [exact Hc | apply Nat.eqb_refl]. }
    repeat split.
    + intros s Hin. apply Hk. apply Hstep. now left.
    + intros s [->|Hin] Hc; [|now apply Ha].
      apply Hk. apply Hstep. right. now split.
    + intros s Hin. destruct (Hb s Hin) as [H|[H1 H2]].
      * apply Hstep in H. destruct H as [H|[-> Hc]]; [now left|].
        right. split; [now left | exact Hc].
      * right. split; [now right | exact H2].
Qed.

Lemma broadcast_rooms n selected sent :
  let sent' :=
    fold_left (fun sent room => fold_left (sendTo (sockets n)) (members n room) sent)
      selected sent in
  forall s, In s sent' <->
            In s sent \/
            (In s (sockets n) /\ exists room, In room selected /\ In s (members n room)).
Proof.
  revert sent. induction selected as [|room selected IH]; intros sent; cbn.
  - intros s. split; [tauto|]. intros [H|(_ & room & [] & _)]. exact H.
  - intros s. rewrite IH.
    destruct (sendTo_frame (sockets n) (members n room) sent) as (Hk & Ha & Hb).
    split.
    + intros [H|(Hc & r & Hr & Hm)].
      * destruct (Hb s H) as [H1|[H1 H2]]; [now left|].
        right. split; [exact H2|]. exists room. split; [now left | exact H1].
      * right. split; [exact Hc|]. exists r. split; [now right | exact Hm].
    + intros [H|(Hc & r & [<-|Hr] & Hm)].
      * left. now apply Hk.
      * left. now apply Ha.
      * right. split; [exact Hc|]. now exists r.
Qed.

(** The sockets that get a broadcast are the connected sockets of the
    rooms that are selected. *)
Lemma In_broadcast n selected s :
  selected <> [] ->
  In s (broadcast n selected) <->
  In s (sockets n) /\ exists room, In room selected /\ In s (members n room).
Proof.
  intros Hne. unfold broadcast. destruct selected as [|room selected]; [congruence|].
  rewrite (broadcast_rooms n (room :: selected) [] s). cbn [In]. tauto.
Qed.

Lemma deliver_frame n t :
  sockets (fst (deliver n t)) = sockets n /\
  (forall room s, In s (members n room) -> In s (members (fst (deliver n t)) room)).
Proof.
  revert n. induction t as [|e t IH]; intros n; [cbn; tauto|].
  destruct e; cbn [deliver]; try apply IH.
  - destruct (joinLoop_frame channels target n) as (Hs & _ & Hm & _).
    destruct (IH (joinLoop channels target n)) as (Hs' & Hm').
    split; [now rewrite Hs', Hs|]. intros room s Hin. apply Hm'. now apply Hm.
  - destruct (reserved event).
    + destruct (IH (nspIn channel n)) as (Hs' & Hm'). split; [exact Hs' | exact Hm'].
    + destruct (IH (mkNamespace (sockets (nspIn channel n)) []
                      (members (nspIn channel n)))) as (Hs' & Hm').
      destruct (deliver _ t) as [n2 ds]. cbn in *. split; [exact Hs' | exact Hm'].
Qed.

(** A join loop of a trace puts every connected socket into its
    target. *)
Lemma deliver_joins_every_socket n t channels target :
  In (EvJoinAll channels target) t ->
  channels <> [] ->
  forall s, In s (sockets n) -> In s (members (fst (deliver n t)) target).
Proof.
  revert n. induction t as [|e t IH]; intros n Hin Hne s Hs; [destruct Hin|].
  destruct Hin as [->|Hin].
  - cbn [deliver].
    destruct (joinLoop_frame channels target n) as (_ & _ & _ & Ht).
    apply (proj2 (deliver_frame _ t)). now apply Ht.
  - destruct e; cbn [deliver]; try (now apply IH).
    + apply IH; try assumption.
      now rewrite (proj1 (joinLoop_frame channels0 target0 n)).
    + destruct (reserved event); [now apply IH|].
      specialize (IH (mkNamespace (sockets (nspIn channel n)) []
                        (members (nspIn channel n))) Hin Hne s Hs).
      destruct (deliver _ t) as [n2 ds]. exact IH.
Qed.

Lemma fold_select_more channels selected x :
  In x selected -> In x (fold_left (fun sel c => select c sel) channels selected).
Proof.
  revert selected. induction channels as [|c channels IH]; intros selected H; cbn;
    [exact H|]. apply IH. now apply In_select_more.
Qed.

Lemma fold_select_In channels selected x :
  In x channels -> In x (fold_left (fun sel c => select c sel) channels selected).
Proof.
  revert selected. induction channels as [|c channels IH]; intros selected H; cbn;
    [destruct H|].
  destruct H as [->|H]; [|now apply IH].
  apply fold_select_more. apply In_select_same.
Qed.

(** The rooms that a join loop selected stay selected when no broadcast
    follows. *)
Lemma deliver_leaves_selected n t channels target c :
  In (EvJoinAll channels target) t ->
  emits t = [] ->
  In c channels ->
  In c (rooms (fst (deliver n t))).
Proof.
  assert (Hkeep : forall t n x, emits t = [] -> In x (rooms n) ->
                    In x (rooms (fst (deliver n t)))).
  { clear. induction t as [|e t IH]; intros n x He Hx; [exact Hx|].
    destruct e; cbn [deliver]; try (apply IH; [exact He | exact Hx]).
    - apply IH; [exact He|].
      rewrite (proj1 (proj2 (joinLoop_frame channels target n))).
      now apply fold_select_more.
    - discriminate He. }
  revert n. induction t as [|e t IH]; intros n Hin He Hc; [destruct Hin|].
  destruct Hin as [->|Hin].
  - cbn [deliver]. apply Hkeep; [exact He|].
    rewrite (proj1 (proj2 (joinLoop_frame channels target n))).
    now apply fold_select_In.
  - destruct e; cbn [deliver]; try (now apply IH).
    discriminate He.
Qed.

(** ** Dispatch *)

Lemma dispatch env p fn :
  createNewMessageHandler env dataOf fn (start p)
  = callDetached
      (if Nat.eqb (length (receivers p)) 1
       then createNewSingleMessageHandler env dataOf fn
       else createNewGroupMessageHandler env dataOf fn)
      (start p).
Proof.
  unfold createNewMessageHandler, start, decode, dataOf. cbn.
  rewrite strictEqOne_of_nat, length_map, length_seq.
  now destruct (Nat.eqb (length (receivers p)) 1).
Qed.

(** C6: a [CREATE_NEW_MESSAGE] with exactly one receiver runs the
    single-conversation handler, and one with two or more receivers runs
    the group-conversation handler. *)
Theorem dispatch_on_receiver_count env p fn :
  (length (receivers p) = 1 ->
   createNewMessageHandler env dataOf fn (start p)
   = callDetached (createNewSingleMessageHandler env dataOf fn) (start p)) /\
  (2 <= length (receivers p) ->
   createNewMessageHandler env dataOf fn (start p)
   = callDetached (createNewGroupMessageHandler env dataOf fn) (start p)).
Proof.
  split; intros Hlen; rewrite dispatch.
  - now rewrite Hlen.
  - replace (Nat.eqb (length (receivers p)) 1) with false; [reflexivity|].
    symmetry. apply Nat.eqb_neq. lia.
Qed.

Lemma dispatch_on_receiver_count_witness :
  createNewMessageHandler (envWith PNull) dataOf None (start (textTo [bob]))
  = callDetached (createNewSingleMessageHandler (envWith PNull) dataOf None)
                 (start (textTo [bob])) /\
  createNewMessageHandler (envWith PNull) dataOf None (start (textTo [bob; carol]))
  = callDetached (createNewGroupMessageHandler (envWith PNull) dataOf None)
                 (start (textTo [bob; carol])).
Proof.
  split.
  - apply (proj1 (dispatch_on_receiver_count (envWith PNull) (textTo [bob]) None)).
    reflexivity.
  - apply (proj2 (dispatch_on_receiver_count (envWith PNull) (textTo [bob; carol]) None)).
    cbn. lia.
Defined.

(** ** Sending to an existing conversation *)



(** ** Starting a group conversation *)

(** C8: a send to two or more receivers looks no conversation up and
    asks for one new conversation of type [group], of the sender and all
    the receivers; when the run does not fail there is exactly one
    broadcast, a [FIRST_TIME_MESSAGE] to the channel of the new
    conversation, whose payload holds the conversation, named
    [New Group], and the message with its persisted [id]; a run that
    fails broadcasts nothing. *)
Theorem group_send_creates_group_conversation env p fn :
  2 <= length (receivers p) ->
  let t := traceOf (createNewMessageHandler env dataOf fn) p in
  calls GetTwoUsersConvoId t = [] /\
  (exists meta ids h,
      calls CreateNewConversation t
      = [EvService CreateNewConversation [meta; ids] h] /\
      readPath h meta [Key.type] = PStr "group" /\
      elemsOf h ids
      = JPrim (sender p Key.id)
        :: map (fun r : Fields => JPrim (r Key.id)) (receivers p)) /\
  (failed t = false ->
   exists payload h,
     emits t = [EvEmit ("convo#" +:+ primToString (createdConvoId env))
                  (FIRST_TIME_MESSAGE env) payload h] /\
     readPath h payload [Key.newConvo; Key.conversation_name] = PStr "New Group" /\
     readPath h payload [Key.newConvo; Key.id] = JPrim (createdConvoId env) /\
     readPath h payload [Key.newMsg; Key.conversationId]
     = JPrim (createdConvoId env) /\
     readPath h payload [Key.newMsg; Key.id] = JPrim (persistedId env)) /\
  (failed t = true -> emits t = []).
Proof.
  intros Hlen. js_trace t Ht. unfold traceOf in Ht. rewrite dispatch in Ht.
  replace (Nat.eqb (length (receivers p)) 1) with false in Ht
    by (symmetry; apply Nat.eqb_neq; lia).
  clear Hlen.
  destruct p as [sd ms mt ca cid cr [pa|fa] cl rs];
    destruct env as [rif rim rcc rlk e1 e2 e3 e4].
  all: env_fields.
  all: js_run Ht.
  all: subst t; trace_simpl.
  all: split; [reflexivity|]; split;
    [ do 3 eexists; split; [reflexivity|]; split; reflexivity
    | split;
      [ intros; try discriminate;
        (do 2 eexists; split; [reflexivity|]; repeat split)
      | intros; try discriminate; reflexivity ] ].
Qed.

Lemma group_send_creates_group_conversation_witness :
  2 <= length (receivers (textTo [bob; carol])) /\
  failed (createRun (envWith PNull) (textTo [bob; carol])) = false /\
  calls GetTwoUsersConvoId (createRun (envWith PNull) (textTo [bob; carol])) = [] /\
  exists payload h,
    emits (createRun (envWith PNull) (textTo [bob; carol]))
    = [EvEmit "convo#9" "FIRST_TIME_MESSAGE" payload h] /\
    readPath h payload [Key.newConvo; Key.conversation_name] = PStr "New Group" /\
    readPath h payload [Key.newMsg; Key.id] = PNum 100.
Proof.
  destruct (group_send_creates_group_conversation
              (envWith PNull) (textTo [bob; carol]) (Some client))
    as (Hlookup & _ & Hemit & _).
  { cbn. lia. }
  assert (Hok : failed (createRun (envWith PNull) (textTo [bob; carol])) = false)
    by (vm_compute; reflexivity).
  destruct (Hemit Hok) as (payload & h & He & Hname & _ & _ & Hid).
  split; [cbn; lia|]. split; [exact Hok|]. split; [exact Hlookup|].
  exists payload, h. split; [exact He|]. split; [exact Hname | exact Hid].
Defined.

(** C10: with no receiver at all the handler raises no validation error:
    it runs the group handler, which asks for a conversation of type
    [group] of the sender alone; when the services resolve with rows the
    run does not fail, and a run that does not fail persists the message
    in the new conversation and broadcasts it with the conversation,
    named [New Group]. *)
Theorem empty_receivers_take_group_path env p fn :
  receivers p = [] ->
  createNewMessageHandler env dataOf fn (start p)
  = callDetached (createNewGroupMessageHandler env dataOf fn) (start p) /\
  let t := traceOf (createNewMessageHandler env dataOf fn) p in
  (exists meta ids h,
      calls CreateNewConversation t
      = [EvService CreateNewConversation [meta; ids] h] /\
      readPath h meta [Key.type] = PStr "group" /\
      elemsOf h ids = [JPrim (sender p Key.id)]) /\
  (resolvesObject (createNewConversation env) = true ->
   resolvesObject (insertMessage env) = true ->
   failed t = false) /\
  (failed t = false ->
   exists row h1 payload h2,
     calls InsertMessage t = [EvService InsertMessage [row] h1] /\
     readPath h1 row [Key.conversation_id] = JPrim (createdConvoId env) /\
     emits t = [EvEmit ("convo#" +:+ primToString (createdConvoId env))
                  (FIRST_TIME_MESSAGE env) payload h2] /\
     readPath h2 payload [Key.newConvo; Key.conversation_name] = PStr "New Group" /\
     readPath h2 payload [Key.newMsg; Key.id] = JPrim (persistedId env)).
Proof.
  intros Hrs. split.
  { rewrite dispatch, Hrs. reflexivity. }
  js_trace t Ht. unfold traceOf in Ht. rewrite dispatch in Ht.
  destruct p as [sd ms mt ca cid cr [pa|fa] cl rs];
    destruct env as [rif rim rcc rlk e1 e2 e3 e4].
  all: env_fields; subst rs; cbn [length Nat.eqb] in Ht.
  all: js_run Ht.
  all: subst t; trace_simpl.
  all: split;
    [ do 3 eexists; split; [reflexivity|]; split; reflexivity
    | split; [ intros; try discriminate; reflexivity
             | intros; try discriminate;
               (do 4 eexists; split; [reflexivity|]; repeat split) ] ].
Qed.

Lemma empty_receivers_take_group_path_witness :
  receivers (textTo []) = [] /\
  failed (createRun (envWith PNull) (textTo [])) = false /\
  (exists meta ids h,
      calls CreateNewConversation (createRun (envWith PNull) (textTo []))
      = [EvService CreateNewConversation [meta; ids] h] /\
      readPath h meta [Key.type] = PStr "group" /\
      elemsOf h ids = [JPrim (PNum 1)]) /\
  exists row h1 payload h2,
    calls InsertMessage (createRun (envWith PNull) (textTo []))
    = [EvService InsertMessage [row] h1] /\
    emits (createRun (envWith PNull) (textTo []))
    = [EvEmit "convo#9" "FIRST_TIME_MESSAGE" payload h2] /\
    readPath h2 payload [Key.newConvo; Key.conversation_name] = PStr "New Group".
Proof.
  destruct (empty_receivers_take_group_path
              (envWith PNull) (textTo []) (Some client) eq_refl)
    as (_ & Hcreate & Hok & Hsend).
  specialize (Hok eq_refl eq_refl).
  destruct (Hsend Hok) as (row & h1 & payload & h2 & Hrow & _ & He & Hname & _).
  split; [reflexivity|]. split; [exact Hok|]. split; [exact Hcreate|].
  exists row, h1, payload, h2. split; [exact Hrow|]. split; [exact He | exact Hname].
Defined.

(** On both new-conversation paths the attachment resolver is never
    called: [insertMessage] gets the [id] the attachment came with. *)
Lemma group_send_never_resolves_attachment env p fn :
  length (receivers p) <> 1 ->
  let t := traceOf (createNewMessageHandler env dataOf fn) p in
  calls InsertFile t = [].
Proof.
  intros Hlen. js_trace t Ht. unfold traceOf in Ht. rewrite dispatch in Ht.
  replace (Nat.eqb (length (receivers p)) 1) with false in Ht
    by (symmetry; now apply Nat.eqb_neq).
  clear Hlen.
  destruct p as [sd ms mt ca cid cr [pa|fa] cl rs];
    destruct env as [rif rim rcc rlk e1 e2 e3 e4].
  all: env_fields.
  all: js_run Ht.
  all: subst t; trace_simpl.
  all: reflexivity.
Qed.

(** ** Starting a single conversation *)

(** The two [emit] calls of a new single conversation: a send to one
    receiver for whom no conversation is found, when it does not fail,
    asks for one conversation of type [single] and calls [emit] with
    [FIRST_TIME_MESSAGE] exactly twice: first with the channel of the
    sender, the conversation being named after the receiver, and then
    with the channel of the receiver, the conversation being named after
    the sender.  Both payloads hold the persisted message. *)
Lemma first_time_message_emit_calls env p fn r :
  receivers p = [r] ->
  getTwoUsersConvoId env = Resolves PNull ->
  let t := traceOf (createNewMessageHandler env dataOf fn) p in
  failed t = false ->
  exists meta ids h0 p1 h1 p2 h2,
    calls CreateNewConversation t
    = [EvService CreateNewConversation [meta; ids] h0] /\
    readPath h0 meta [Key.type] = PStr "single" /\
    emits t = [EvEmit ("user#" +:+ primToString (sender p Key.id))
                 (FIRST_TIME_MESSAGE env) p1 h1;
               EvEmit ("user#" +:+ primToString (r Key.id))
                 (FIRST_TIME_MESSAGE env) p2 h2] /\
    readPath h1 p1 [Key.newConvo; Key.conversation_name] = JPrim (r Key.name) /\
    readPath h2 p2 [Key.newConvo; Key.conversation_name]
    = JPrim (sender p Key.name) /\
    readPath h1 p1 [Key.newMsg; Key.id] = JPrim (persistedId env) /\
    readPath h2 p2 [Key.newMsg; Key.id] = JPrim (persistedId env).
Proof.
  intros Hrs Hlk. js_trace t Ht. unfold traceOf in Ht. rewrite dispatch in Ht.
  destruct p as [sd ms mt ca cid cr [pa|fa] cl rs];
    destruct env as [rif rim rcc rlk e1 e2 e3 e4].
  all: env_fields; subst rs rlk; cbn [length Nat.eqb] in Ht.
  all: js_run Ht.
  all: subst t; trace_simpl.
  all: intros; try discriminate;
    (do 7 eexists; split; [reflexivity|]; repeat split).
Qed.

(** What the two broadcasts reach.  The join loop of the handler has
    selected the channels of the sender and of the receiver on the
    namespace, and nothing was broadcast since: the first broadcast,
    named after the receiver, goes to both channels, and so to every
    connected socket of the receiver; the second, named after the sender,
    goes to the channel of the receiver alone. *)
Lemma first_payload_reaches_the_receiver env p fn r n :
  receivers p = [r] ->
  getTwoUsersConvoId env = Resolves PNull ->
  reserved (FIRST_TIME_MESSAGE env) = false ->
  let t := traceOf (createNewMessageHandler env dataOf fn) p in
  failed t = false ->
  exists d1 d2,
    snd (deliver n t) = [d1; d2] /\
    nameSent d1 = JPrim (r Key.name) /\
    nameSent d2 = JPrim (sender p Key.name) /\
    In ("user#" +:+ primToString (sender p Key.id)) (selected d1) /\
    In ("user#" +:+ primToString (r Key.id)) (selected d1) /\
    selected d2 = ["user#" +:+ primToString (r Key.id)] /\
    (forall s, In s (sockets n) ->
               In s (members n ("user#" +:+ primToString (r Key.id))) ->
               In s (recipients d1)).
Proof.
  intros Hrs Hlk Hres. js_trace t Ht. unfold traceOf in Ht. rewrite dispatch in Ht.
  destruct p as [sd ms mt ca cid cr [pa|fa] cl rs];
    destruct env as [rif rim rcc rlk e1 e2 e3 e4].
  all: env_fields; subst rs rlk; cbn [length Nat.eqb] in Ht.
  all: js_run Ht.
  all: subst t; trace_simpl.
  all: intros; try discriminate.
  all: cbn [deliver]; rewrite Hres; cbn [deliver snd].
  all: do 2 eexists; split; [reflexivity|].
  all: cbn [nameSent emitted selected recipients rooms nspIn sockets members].
  all: rewrite (proj1 (proj2 (joinLoop_frame _ _ n))).
  all: cbn [fold_left].
  all: split; [reflexivity|]; split; [reflexivity|].
  all: split; [apply In_select_same|].
  all: split; [apply In_select_more, In_select_same|].
  all: split; [reflexivity|].
  all: intros s Hs Hm; apply In_broadcast;
    [ intros Hnil; eapply in_nil; rewrite <- Hnil; apply In_select_same
    | split;
      [ cbn [sockets nspIn]; now rewrite (proj1 (joinLoop_frame _ _ n))
      | eexists; split;
        [ apply In_select_more, In_select_same
        | cbn [members nspIn];
          now apply (proj1 (proj2 (proj2 (joinLoop_frame _ _ n)))) ] ] ].
Qed.

(** C7 (as the handler behaves): [alice] (1, [A]) writes to [bob] (2,
    [B]) for the first time, with a socket of each and one of [carol]
    connected.  The handler calls [emit] with the channel of [alice] and
    then with the channel of [bob], but its join loop has left both
    channels selected: the first payload, named [B], is sent to the
    sockets of [alice] and of [bob], and the second, named [A], to the
    socket of [bob].  The channel of the receiver gets a payload that
    carries the receiver's own name. *)
Example first_time_message_reaches_both_channels :
  joins (createRun (envWith PNull) (textTo [bob]))
  = [EvJoinAll ["user#1"; "user#2"] "convo#9"] /\
  map (fun e => match e with EvEmit c _ _ _ => c | _ => "" end)
    (emits (createRun (envWith PNull) (textTo [bob])))
  = ["user#1"; "user#2"] /\
  map (fun d => (selected d, recipients d, nameSent d))
    (snd (deliver lobby (createRun (envWith PNull) (textTo [bob]))))
  = [ (["user#1"; "user#2"], [0; 1], JPrim (PStr "B"));
      (["user#2"], [1], JPrim (PStr "A")) ] /\
  members lobby "user#1" = [0] /\
  members lobby "user#2" = [1] /\
  sender (textTo [bob]) Key.name = PStr "A" /\
  bob Key.name = PStr "B".
Proof. vm_compute. repeat split. Qed.

Lemma single_send_never_resolves_attachment env p fn r :
  receivers p = [r] ->
  getTwoUsersConvoId env = Resolves PNull ->
  let t := traceOf (createNewMessageHandler env dataOf fn) p in
  calls InsertFile t = [].
Proof.
  intros Hrs Hlk. js_trace t Ht. unfold traceOf in Ht. rewrite dispatch in Ht.
  destruct p as [sd ms mt ca cid cr [pa|fa] cl rs];
    destruct env as [rif rim rcc rlk e1 e2 e3 e4].
  all: env_fields; subst rs rlk; cbn [length Nat.eqb] in Ht.
  all: js_run Ht.
  all: subst t; trace_simpl.
  all: reflexivity.
Qed.

(** C9: a send to one receiver for whom [getTwoUsersConvoId] finds a
    conversation never asks for a new conversation; [insertMessage] is
    called once, with the found id as [conversation_id], unless the
    attachment could not be stored first. *)
Theorem existing_conversation_is_reused env p fn r cid :
  receivers p = [r] ->
  getTwoUsersConvoId env = Resolves cid ->
  cid <> PNull ->
  let t := traceOf (createNewMessageHandler env dataOf fn) p in
  calls CreateNewConversation t = [] /\
  ((exists row h,
       calls InsertMessage t = [EvService InsertMessage [row] h] /\
       readPath h row [Key.conversation_id] = JPrim cid)
   \/ (calls InsertMessage t = [] /\ calls InsertFile t <> [] /\ failed t = true)).
Proof.
  intros Hrs Hlk Hcid. js_trace t Ht. unfold traceOf in Ht. rewrite dispatch in Ht.
  destruct p as [sd ms mt ca cd cr [pa|fa] cl rs];
    destruct env as [rif rim rcc rlk e1 e2 e3 e4].
  all: env_fields; subst rs rlk; cbn [length Nat.eqb] in Ht.
  all: js_run Ht.
  all: subst t; trace_simpl.
  all: split; [reflexivity|];
    first [ left; do 2 eexists; split; reflexivity
          | right; split; [reflexivity|]; split; [discriminate|reflexivity] ].
Qed.

Lemma existing_conversation_is_reused_witness :
  receivers (textTo [bob]) = [bob] /\
  getTwoUsersConvoId (envWith (PNum 7)) = Resolves (PNum 7) /\
  PNum 7 <> PNull /\
  calls CreateNewConversation (createRun (envWith (PNum 7)) (textTo [bob])) = [] /\
  argField InsertMessage Key.conversation_id
    (createRun (envWith (PNum 7)) (textTo [bob])) = [JPrim (PNum 7)].
Proof.
  assert (Hneq : PNum 7 <> PNull) by discriminate.
  destruct (existing_conversation_is_reused
              (envWith (PNum 7)) (textTo [bob]) (Some client) bob (PNum 7)
              eq_refl eq_refl Hneq)
    as (Hcreate & _).
  split; [reflexivity|]. split; [reflexivity|]. split; [exact Hneq|].
  split; [exact Hcreate|]. vm_compute. reflexivity.
Defined.

(** On that path no function of a client is ever called: the
    existing-conversation handler is entered without the function of the
    packet and calls its own empty function instead. *)
Lemma delegated_send_drops_callback env p fn r cid :
  receivers p = [r] ->
  getTwoUsersConvoId env = Resolves cid ->
  cid <> PNull ->
  let t := traceOf (createNewMessageHandler env dataOf fn) p in
  clientAcks t = [].
Proof.
  intros Hrs Hlk Hcid. js_trace t Ht. unfold traceOf in Ht. rewrite dispatch in Ht.
  destruct p as [sd ms mt ca cd cr [pa|fa] cl rs];
    destruct env as [rif rim rcc rlk e1 e2 e3 e4].
  all: env_fields; subst rs rlk; cbn [length Nat.eqb] in Ht.
  all: js_run Ht.
  all: subst t; trace_simpl.
  all: reflexivity.
Qed.

(** C2 (as the handler behaves): when a conversation is found the
    function of the packet is called neither with the provisional message
    nor, when persisting fails, with the error; both calls go to the empty
    function, while the message is persisted in the found conversation and
    broadcast.  A send that starts a conversation does call the function
    of the packet. *)
Example delegated_send_is_not_acknowledged :
  clientAcks (createRun (envWith (PNum 7)) (textTo [bob])) = [] /\
  acks (createRun (envWith (PNum 7)) (textTo [bob]))
  = [(Noop, [null; JRef (Allocated 1)])] /\
  failed (createRun (envWith (PNum 7)) (textTo [bob])) = false /\
  argField InsertMessage Key.conversation_id
    (createRun (envWith (PNum 7)) (textTo [bob])) = [JPrim (PNum 7)] /\
  length (emits (createRun (envWith (PNum 7)) (textTo [bob]))) = 1 /\
  clientAcks (createRun (envDown (PNum 7)) (textTo [bob])) = [] /\
  acks (createRun (envDown (PNum 7)) (textTo [bob]))
  = [(Noop, [null; JRef (Allocated 1)]); (Noop, [JError "Something went wrong"])] /\
  clientAcks (createRun (envWith PNull) (textTo [bob]))
  = [(client, [null; JRef (Allocated 3)])].
Proof. vm_compute. repeat split. Qed.

(** C3 (as the handlers behave): an attachment that was not stored yet
    is stored by a [NEW_MESSAGE], which persists the message with the
    [id] of the stored file; a send that starts a conversation, single or
    group, never calls [insertFile] and persists the message with no
    [attachment_id]. *)
Example new_conversation_skips_attachment_resolver :
  length (calls InsertFile (sendRun (envWith PNull) (fileTo [bob]))) = 1 /\
  argField InsertMessage Key.attachment_id (sendRun (envWith PNull) (fileTo [bob]))
  = [JPrim (PNum 50)] /\
  calls InsertFile (createRun (envWith PNull) (fileTo [bob])) = [] /\
  argField InsertMessage Key.attachment_id (createRun (envWith PNull) (fileTo [bob]))
  = [undefined] /\
  calls InsertFile (createRun (envWith PNull) (fileTo [bob; carol])) = [] /\
  argField InsertMessage Key.attachment_id
    (createRun (envWith PNull) (fileTo [bob; carol]))
  = [undefined].
Proof. vm_compute. repeat split. Qed.

(** ** Failures *)

(** When the attachment resolver or the message store rejects, no
    broadcast is made, and the handler that was persisting calls its
    callback with the one error [DEFAULT], after the call with the
    provisional message, which stays as it was.  For a [NEW_MESSAGE] the
    callback is the function of the packet, or the empty function of the
    handler when there is none; for a [CREATE_NEW_MESSAGE] it is
    [persistingCallback]: not the function of the packet when a
    conversation was found. *)
Lemma rejection_aborts_broadcast env p fn f :
  let t1 := traceOf (_newMessageHandler env dataOf fn) p in
  let t2 := traceOf (createNewMessageHandler env dataOf (Some f)) p in
  (rejection env t1 = true ->
   emits t1 = [] /\
   exists bm,
     acks t1 = [(default Noop fn, [null; bm]);
                (default Noop fn, [JError (DEFAULT env)])]) /\
  (rejection env t2 = true ->
   emits t2 = [] /\
   exists bm,
     acks t2 = [(persistingCallback f t2, [null; bm]);
                (persistingCallback f t2, [JError (DEFAULT env)])]).
Proof.
  intros t1 t2. split.
  - revert t1. clear t2. js_trace t Ht.
    destruct p as [sd ms mt ca cid cr [pa|fa] cl rs];
      destruct env as [rif rim rcc rlk e1 e2 e3 e4].
    all: env_fields.
    all: js_run Ht.
    all: subst t; trace_simpl.
    all: intros; try discriminate; (split; [reflexivity|]; eexists; reflexivity).
  - revert t2. clear t1. js_trace t Ht.
    unfold traceOf in Ht. rewrite dispatch in Ht.
    destruct p as [sd ms mt ca cid cr att cl rs];
      destruct env as [rif rim rcc rlk e1 e2 e3 e4].
    env_fields.
    destruct (Nat.eqb (length rs) 1) eqn:Hlen;
      [ destruct rs as [|r [|r' rs]]; try discriminate Hlen | ];
      clear Hlen; destruct att as [pa|fa].
    all: js_run Ht.
    all: subst t; unfold persistingCallback; trace_simpl.
    all: intros; try discriminate; (split; [reflexivity|]; eexists; reflexivity).
Qed.

(** C5 (as the handlers behave): when a [CREATE_NEW_MESSAGE] finds a
    conversation and [insertMessage] rejects, nothing is broadcast, but
    the function of the packet is never called: the provisional message
    and the error [DEFAULT] both go to the empty function of
    [_newMessageHandler], which was entered without the function of the
    packet.  On the other paths the function of the packet gets both
    calls: a [NEW_MESSAGE], a new single conversation (the [catch] of
    [createNewSingleMessageHandler]) and a new group conversation. *)
Example delegated_rejection_is_not_reported :
  rejection (envDown (PNum 7)) (createRun (envDown (PNum 7)) (textTo [bob])) = true /\
  emits (createRun (envDown (PNum 7)) (textTo [bob])) = [] /\
  clientAcks (createRun (envDown (PNum 7)) (textTo [bob])) = [] /\
  acks (createRun (envDown (PNum 7)) (textTo [bob]))
  = [(Noop, [null; JRef (Allocated 1)]); (Noop, [JError "Something went wrong"])] /\
  acks (sendRun (envDown PNull) (textTo [bob]))
  = [(client, [null; JRef (Allocated 0)]); (client, [JError "Something went wrong"])] /\
  emits (sendRun (envDown PNull) (textTo [bob])) = [] /\
  acks (createRun (envDown PNull) (textTo [bob]))
  = [(client, [null; JRef (Allocated 3)]); (client, [JError "Something went wrong"])] /\
  emits (createRun (envDown PNull) (textTo [bob])) = [] /\
  acks (createRun (envDown PNull) (textTo [bob; carol]))
  = [(client, [null; JRef (Allocated 3)]); (client, [JError "Something went wrong"])] /\
  emits (createRun (envDown PNull) (textTo [bob; carol])) = [].
Proof. vm_compute. repeat split. Qed.

(** ** The default of [canReply] *)









(** An explicit [canReply: false] reaches the client and the conversation
    as [true], on each path. *)
Example canReply_false_is_sent_as_true :
  map canReplyIn (sendRun (envWith PNull) (textTo [bob]))
  = [Some (JPrim (PBool true)); None; None; Some (JPrim (PBool true))] /\
  map canReplyIn (emits (createRun (envWith (PNum 7)) (textTo [bob])))
  = [Some (JPrim (PBool true))] /\
  map canReplyIn (emits (createRun (envWith PNull) (textTo [bob])))
  = [Some (JPrim (PBool true)); Some (JPrim (PBool true))] /\
  map canReplyIn (emits (createRun (envWith PNull) (textTo [bob; carol])))
  = [Some (JPrim (PBool true))].
Proof. vm_compute. repeat split. Qed.

(** * Further properties of the handlers *)

Ltac each_event tac :=
  repeat (apply List.Forall_cons; [tac|]); apply List.Forall_nil.

(** The three paths of a [CREATE_NEW_MESSAGE], by the number of
    receivers, each with and without an attachment object. *)
Ltac split_paths rs att :=
  let Hlen := fresh "Hlen" in
  destruct (Nat.eqb (length rs) 1) eqn:Hlen;
  [ destruct rs as [|? [|? ?]]; try discriminate Hlen | ];
  clear Hlen; destruct att as [?|?].

Ltac trace_read :=
  unfold refusal, joins, nonCallbacks;
  trace_simpl;
  cbn [List.filter existsb map isEmit isCall isDebug isCallback isClient isJoin
       isUnhandled rejects fst app orb andb negb].

(** A second run in the same case: the decisions are taken as in the
    first. *)
Ltac js_again H :=
  first [ match goal with
          | E : truthyPrim _ = _ |- _ => rewrite E in H
          | E : nullishPrim _ = _ |- _ => rewrite E in H
          | E : isNullPrim _ = _ |- _ => rewrite E in H
          end
        | js_step H ].

Ltac js_rerun H :=
  js_init H; cbn in H; repeat (js_again H; cbn in H); js_fn H.

Ltac message_events :=
  each_event
    ltac:(let m := fresh "m" in
          let h := fresh "h" in
          let Hx := fresh "Hx" in
          intros m h Hx;
          first [ discriminate Hx
                | injection Hx as <- <-; repeat split; reflexivity ]).

Ltac row_events :=
  each_event
    ltac:(let args := fresh "args" in
          let h := fresh "h" in
          let Hx := fresh "Hx" in
          intros args h Hx;
          first [ discriminate Hx
                | injection Hx as <- <-; eexists; repeat split; reflexivity ]).

Ltac attachment_events :=
  each_event
    ltac:(intros;
          first [ discriminate
                | simplify_eq; repeat split; try reflexivity;
                  let k := fresh "k" in
                  let Hk := fresh "Hk" in
                  intros k Hk; destruct k; try reflexivity; congruence ]).

(** ** What is sent and what is stored *)

(** X1: on every path of a [NEW_MESSAGE] and of a [CREATE_NEW_MESSAGE],
    the message of every acknowledgment and of every broadcast has the
    body [message || messageText], and the [messageText], the
    [createdAt] and the sender of the packet; a packet without a
    [message] is sent with its [messageText] as the body. *)
Theorem message_carries_the_packet env p fn :
  carriesPacket p (traceOf (_newMessageHandler env dataOf fn) p) /\
  carriesPacket p (traceOf (createNewMessageHandler env dataOf fn) p) /\
  (truthy (JPrim (message p)) = false ->
   jsOr (JPrim (message p)) (JPrim (messageText p)) = JPrim (messageText p)).
Proof.
  split; [|split].
  - remember (traceOf (_newMessageHandler env dataOf fn) p) as t eqn:Ht.
    destruct p as [sd ms mt ca cid cr [pa|fa] cl rs];
      destruct env as [rif rim rcc rlk e1 e2 e3 e4].
    all: unfold carriesPacket; env_fields.
    all: js_run Ht.
    all: subst t.
    all: message_events.
  - remember (traceOf (createNewMessageHandler env dataOf fn) p) as t eqn:Ht.
    unfold traceOf in Ht. rewrite dispatch in Ht.
    destruct p as [sd ms mt ca cid cr att cl rs];
      destruct env as [rif rim rcc rlk e1 e2 e3 e4].
    unfold carriesPacket; env_fields.
    split_paths rs att.
    all: js_run Ht.
    all: subst t.
    all: message_events.
  - unfold jsOr. now intros ->.
Qed.

Lemma message_carries_the_packet_witness :
  truthy (JPrim (message (textOnlyTo [bob]))) = false /\
  jsOr (JPrim (message (textOnlyTo [bob]))) (JPrim (messageText (textOnlyTo [bob])))
  = JPrim (PStr "hi") /\
  carriesPacket (textOnlyTo [bob]) (sendRun (envWith PNull) (textOnlyTo [bob])).
Proof.
  destruct (message_carries_the_packet (envWith PNull) (textOnlyTo [bob]) (Some client))
    as (Hsend & _ & Hbody).
  split; [reflexivity|]. split; [exact (Hbody eq_refl) | exact Hsend].
Defined.

(** X2: every call of [insertMessage], on every path, has one argument:
    a row with [sender_id] the [id] of the sender, [message] the body
    [message || messageText] and [message_text] the [messageText] of the
    packet. *)
Theorem row_carries_the_packet env p fn :
  persistsPacket p (traceOf (_newMessageHandler env dataOf fn) p) /\
  persistsPacket p (traceOf (createNewMessageHandler env dataOf fn) p).
Proof.
  split.
  - remember (traceOf (_newMessageHandler env dataOf fn) p) as t eqn:Ht.
    destruct p as [sd ms mt ca cid cr [pa|fa] cl rs];
      destruct env as [rif rim rcc rlk e1 e2 e3 e4].
    all: unfold persistsPacket; env_fields.
    all: js_run Ht.
    all: subst t.
    all: row_events.
  - remember (traceOf (createNewMessageHandler env dataOf fn) p) as t eqn:Ht.
    unfold traceOf in Ht. rewrite dispatch in Ht.
    destruct p as [sd ms mt ca cid cr att cl rs];
      destruct env as [rif rim rcc rlk e1 e2 e3 e4].
    unfold persistsPacket; env_fields.
    split_paths rs att.
    all: js_run Ht.
    all: subst t.
    all: row_events.
Qed.

(** ** The attachment of a message to an existing conversation *)

(** X3: when a message to an existing conversation (a [NEW_MESSAGE], or
    a [CREATE_NEW_MESSAGE] that finds the conversation) has an attachment
    object and [insertFile] resolves with a row, [insertFile] gets the
    attachment as it came, [insertMessage] gets the [id] of the row as
    [attachment_id], and the broadcast shows the attachment with that
    [id] and its other fields unchanged, while the acknowledgment, sent
    before, shows the same object with the [id] it came with. *)
Theorem attachment_is_stored_and_patched env p fn fa ff :
  attachment p = IObj fa ->
  insertFile env = ResolvesObject ff ->
  storesAttachment fa ff (traceOf (_newMessageHandler env dataOf fn) p) /\
  (forall r cid,
     receivers p = [r] ->
     getTwoUsersConvoId env = Resolves cid ->
     cid <> PNull ->
     storesAttachment fa ff (traceOf (createNewMessageHandler env dataOf fn) p)).
Proof.
  intros Hatt Hif. split.
  - remember (traceOf (_newMessageHandler env dataOf fn) p) as t eqn:Ht.
    destruct p as [sd ms mt ca cid cr att cl rs];
      destruct env as [rif rim rcc rlk e1 e2 e3 e4].
    unfold storesAttachment; env_fields; subst att rif.
    js_run Ht.
    all: subst t; trace_read.
    all: do 4 eexists; split; [reflexivity|]; split; [reflexivity|];
      split; [reflexivity|]; split; [reflexivity|]; split; attachment_events.
  - intros r cid Hrs Hlk Hcid.
    remember (traceOf (createNewMessageHandler env dataOf fn) p) as t eqn:Ht.
    unfold traceOf in Ht. rewrite dispatch in Ht.
    destruct p as [sd ms mt ca cd cr att cl rs];
      destruct env as [rif rim rcc rlk e1 e2 e3 e4].
    unfold storesAttachment; env_fields; subst att rif rs rlk;
      cbn [length Nat.eqb] in Ht.
    js_run Ht.
    all: subst t; trace_read.
    all: do 4 eexists; split; [reflexivity|]; split; [reflexivity|];
      split; [reflexivity|]; split; [reflexivity|]; split; attachment_events.
Qed.

Lemma attachment_is_stored_and_patched_witness :
  attachment (fileTo [bob]) = IObj (fieldsOf [(Key.name, PStr "f.png")]) /\
  insertFile (envWith (PNum 8)) = ResolvesObject (fieldsOf [(Key.id, PNum 50)]) /\
  receivers (fileTo [bob]) = [bob] /\
  getTwoUsersConvoId (envWith (PNum 8)) = Resolves (PNum 8) /\
  PNum 8 <> PNull /\
  storesAttachment (fieldsOf [(Key.name, PStr "f.png")]) (fieldsOf [(Key.id, PNum 50)])
    (sendRun (envWith (PNum 8)) (fileTo [bob])) /\
  storesAttachment (fieldsOf [(Key.name, PStr "f.png")]) (fieldsOf [(Key.id, PNum 50)])
    (createRun (envWith (PNum 8)) (fileTo [bob])) /\
  map (fun e => match e with
                | EvEmit _ _ m h => readPath h m [Key.attachment; Key.id]
                | _ => undefined
                end)
      (emits (sendRun (envWith (PNum 8)) (fileTo [bob])))
  = [JPrim (PNum 50)].
Proof.
  assert (Hneq : PNum 8 <> PNull) by discriminate.
  destruct (attachment_is_stored_and_patched
              (envWith (PNum 8)) (fileTo [bob]) (Some client) _ _ eq_refl eq_refl)
    as (Hsend & Hcreate).
  split; [reflexivity|]. split; [reflexivity|]. split; [reflexivity|].
  split; [reflexivity|]. split; [exact Hneq|]. split; [exact Hsend|].
  split; [exact (Hcreate bob (PNum 8) eq_refl eq_refl Hneq)|].
  vm_compute. reflexivity.
Defined.

(** X4: a [NEW_MESSAGE] calls [insertFile] exactly when its attachment
    is neither [undefined] nor [null].  Without an attachment
    [insertMessage] is always called; with one it is called only when the
    attachment is an object and [insertFile] resolved with a value: the
    message is not persisted when its file could not be stored. *)
Theorem file_is_stored_first env p fn :
  let t := traceOf (_newMessageHandler env dataOf fn) p in
  called InsertFile t = looseNeqNull (attachmentValue p) /\
  called InsertMessage t
  = (if looseNeqNull (attachmentValue p)
     then isObject (attachment p) && resolvesValue (insertFile env)
     else true).
Proof.
  js_trace t Ht.
  destruct p as [sd ms mt ca cid cr [pa|fa] cl rs];
    destruct env as [rif rim rcc rlk e1 e2 e3 e4].
  all: unfold attachmentValue, looseNeqNull, isObject, resolvesValue; env_fields.
  all: js_run Ht.
  all: subst t; trace_read.
  all: repeat match goal with
         | E : nullishPrim _ = _ |- _ => rewrite E
         | E : truthyPrim _ = _ |- _ => rewrite E
         end; cbn [negb andb]; split; reflexivity.
Qed.

(** ** Starting a conversation, step by step *)

(** X5: a [CREATE_NEW_MESSAGE] that starts a conversation, when
    [createNewConversation] resolves with a row, calls the function of
    the packet after the conversation was created and its channel joined,
    and before [insertMessage] is called: the acknowledged message has no
    [id] yet, and it and the persisted row are in the new conversation. *)
Theorem new_conversation_is_acknowledged_before_persisting env p f fc :
  createNewConversation env = ResolvesObject fc ->
  let t := traceOf (createNewMessageHandler env dataOf (Some f)) p in
  (length (receivers p) <> 1 ->
   exists meta ids hc chans target bm h0 row h1 rest,
     t = EvService CreateNewConversation [meta; ids] hc
         :: EvJoinAll chans target
         :: EvCallback f [null; bm] h0
         :: EvService InsertMessage [row] h1 :: rest /\
     readPath h0 bm [Key.id] = undefined /\
     readPath h0 bm [Key.conversationId] = JPrim (fc Key.id) /\
     readPath h1 row [Key.conversation_id] = JPrim (fc Key.id)) /\
  (forall r,
     receivers p = [r] ->
     getTwoUsersConvoId env = Resolves PNull ->
     exists args hl meta ids hc chans target bm h0 row h1 rest,
       t = EvService GetTwoUsersConvoId args hl
           :: EvConsoleLog null
           :: EvConsoleLog (JPrim (PStr "object"))
           :: EvService CreateNewConversation [meta; ids] hc
           :: EvJoinAll chans target
           :: EvCallback f [null; bm] h0
           :: EvService InsertMessage [row] h1 :: rest /\
       readPath h0 bm [Key.id] = undefined /\
       readPath h0 bm [Key.conversationId] = JPrim (fc Key.id) /\
       readPath h1 row [Key.conversation_id] = JPrim (fc Key.id)).
Proof.
  intros Hcc. js_trace t Ht. unfold traceOf in Ht. rewrite dispatch in Ht.
  split.
  - intros Hlen.
    replace (Nat.eqb (length (receivers p)) 1) with false in Ht
      by (symmetry; now apply Nat.eqb_neq).
    clear Hlen.
    destruct p as [sd ms mt ca cid cr [pa|fa] cl rs];
      destruct env as [rif rim rcc rlk e1 e2 e3 e4].
    all: env_fields; subst rcc.
    all: js_run Ht.
    all: subst t.
    all: do 10 eexists; split; [reflexivity|]; repeat split.
  - intros r Hrs Hlk.
    destruct p as [sd ms mt ca cid cr [pa|fa] cl rs];
      destruct env as [rif rim rcc rlk e1 e2 e3 e4].
    all: env_fields; subst rcc rs rlk; cbn [length Nat.eqb] in Ht.
    all: js_run Ht.
    all: subst t.
    all: do 12 eexists; split; [reflexivity|]; repeat split.
Qed.

Lemma new_conversation_is_acknowledged_before_persisting_witness :
  createNewConversation (envWith PNull) = ResolvesObject (fieldsOf [(Key.id, PNum 9)]) /\
  length (receivers (textTo [bob; carol])) <> 1 /\
  receivers (textTo [bob]) = [bob] /\
  getTwoUsersConvoId (envWith PNull) = Resolves PNull /\
  (exists bm h0,
     nth_error (createRun (envWith PNull) (textTo [bob; carol])) 2
     = Some (EvCallback client [null; bm] h0) /\
     readPath h0 bm [Key.conversationId] = JPrim (PNum 9)) /\
  (exists bm h0,
     nth_error (createRun (envWith PNull) (textTo [bob])) 5
     = Some (EvCallback client [null; bm] h0) /\
     readPath h0 bm [Key.conversationId] = JPrim (PNum 9)).
Proof.
  assert (Hlen : length (receivers (textTo [bob; carol])) <> 1) by (cbn; lia).
  destruct (new_conversation_is_acknowledged_before_persisting
              (envWith PNull) (textTo [bob; carol]) client _ eq_refl) as (Hgroup & _).
  destruct (new_conversation_is_acknowledged_before_persisting
              (envWith PNull) (textTo [bob]) client _ eq_refl) as (_ & Hsingle).
  destruct (Hgroup Hlen)
    as (meta & ids & hc & chans & target & bm & h0 & row & h1 & rest & Ht & _ & Hc & _).
  destruct (Hsingle bob eq_refl eq_refl)
    as (args & hl & meta' & ids' & hc' & chans' & target' & bm' & h0' & row' & h1'
        & rest' & Ht' & _ & Hc' & _).
  split; [reflexivity|]. split; [exact Hlen|]. split; [reflexivity|].
  split; [reflexivity|]. split.
  - exists bm, h0. fold (createRun (envWith PNull) (textTo [bob; carol])) in Ht.
    rewrite Ht. split; [reflexivity | exact Hc].
  - exists bm', h0'. fold (createRun (envWith PNull) (textTo [bob])) in Ht'.
    rewrite Ht'. split; [reflexivity | exact Hc'].
Defined.

(** X6: when the lookup of the conversation or the creation of the new
    one rejects, the function of the packet is called once, with the
    error [DEFAULT] and without a provisional message before; no channel
    is joined, nothing is stored and nothing is broadcast. *)
Theorem refusal_is_reported_once env p f :
  let t := traceOf (createNewMessageHandler env dataOf (Some f)) p in
  refusal env t = true ->
  acks t = [(f, [JError (DEFAULT env)])] /\
  calls InsertFile t = [] /\
  calls InsertMessage t = [] /\
  joins t = [] /\
  emits t = [].
Proof.
  js_trace t Ht. unfold traceOf in Ht. rewrite dispatch in Ht.
  destruct p as [sd ms mt ca cid cr att cl rs];
    destruct env as [rif rim rcc rlk e1 e2 e3 e4].
  env_fields.
  split_paths rs att.
  all: js_run Ht.
  all: subst t; trace_read.
  all: intros; try discriminate; repeat split.
Qed.

Lemma refusal_is_reported_once_witness :
  refusal (envRefusing PNull) (createRun (envRefusing PNull) (textTo [bob])) = true /\
  acks (createRun (envRefusing PNull) (textTo [bob]))
  = [(client, [JError "Something went wrong"])] /\
  calls InsertMessage (createRun (envRefusing PNull) (textTo [bob])) = [] /\
  emits (createRun (envRefusing PNull) (textTo [bob])) = [].
Proof.
  assert (H : refusal (envRefusing PNull)
                (createRun (envRefusing PNull) (textTo [bob])) = true)
    by (vm_compute; reflexivity).
  destruct (refusal_is_reported_once (envRefusing PNull) (textTo [bob]) client H)
    as (Hacks & _ & Hrows & _ & Hemits).
  split; [exact H|]. split; [exact Hacks|]. split; [exact Hrows | exact Hemits].
Defined.

(** X7: a send to one receiver looks the conversation up by the [id] of
    the sender, the [id] of that receiver and the classroom of the
    packet.  A new conversation is created by the sender in that
    classroom: of type [single] with the sender and the receiver as its
    members, or of type [group] with the sender and all the receivers,
    in their order and as they came (nobody is left out or merged). *)
Theorem conversation_is_scoped_by_classroom env p fn :
  let t := traceOf (createNewMessageHandler env dataOf fn) p in
  (forall r,
     receivers p = [r] ->
     exists h,
       calls GetTwoUsersConvoId t
       = [EvService GetTwoUsersConvoId
            [JPrim (sender p Key.id); JPrim (r Key.id); JPrim (classroomId p)] h]) /\
  (forall r,
     receivers p = [r] ->
     getTwoUsersConvoId env = Resolves PNull ->
     describesConversation p "single"
       [JPrim (sender p Key.id); JPrim (r Key.id)] t) /\
  (length (receivers p) <> 1 ->
   describesConversation p "group"
     (JPrim (sender p Key.id)
      :: map (fun r : Fields => JPrim (r Key.id)) (receivers p)) t).
Proof.
  js_trace t Ht. unfold traceOf in Ht. rewrite dispatch in Ht.
  split; [|split].
  - intros r Hrs.
    destruct p as [sd ms mt ca cid cr [pa|fa] cl rs];
      destruct env as [rif rim rcc rlk e1 e2 e3 e4].
    all: env_fields; subst rs; cbn [length Nat.eqb] in Ht.
    all: js_run Ht.
    all: subst t; trace_read.
    all: eexists; reflexivity.
  - intros r Hrs Hlk.
    destruct p as [sd ms mt ca cid cr [pa|fa] cl rs];
      destruct env as [rif rim rcc rlk e1 e2 e3 e4].
    all: unfold describesConversation; env_fields; subst rs rlk;
      cbn [length Nat.eqb] in Ht.
    all: js_run Ht.
    all: subst t; trace_read.
    all: do 3 eexists; split; [reflexivity|]; repeat split.
  - intros Hlen.
    replace (Nat.eqb (length (receivers p)) 1) with false in Ht
      by (symmetry; now apply Nat.eqb_neq).
    clear Hlen.
    destruct p as [sd ms mt ca cid cr [pa|fa] cl rs];
      destruct env as [rif rim rcc rlk e1 e2 e3 e4].
    all: unfold describesConversation; env_fields.
    all: js_run Ht.
    all: subst t; trace_read.
    all: do 3 eexists; split; [reflexivity|]; repeat split.
Qed.

Lemma conversation_is_scoped_by_classroom_witness :
  receivers (textTo [bob]) = [bob] /\
  getTwoUsersConvoId (envWith PNull) = Resolves PNull /\
  length (receivers (textTo [bob; alice])) <> 1 /\
  (exists h,
     calls GetTwoUsersConvoId (createRun (envWith PNull) (textTo [bob]))
     = [EvService GetTwoUsersConvoId
          [JPrim (PNum 1); JPrim (PNum 2); JPrim (PNum 5)] h]) /\
  describesConversation (textTo [bob]) "single" [JPrim (PNum 1); JPrim (PNum 2)]
    (createRun (envWith PNull) (textTo [bob])) /\
  describesConversation (textTo [bob; alice]) "group"
    [JPrim (PNum 1); JPrim (PNum 2); JPrim (PNum 1)]
    (createRun (envWith PNull) (textTo [bob; alice])).
Proof.
  assert (Hlen : length (receivers (textTo [bob; alice])) <> 1) by (cbn; lia).
  destruct (conversation_is_scoped_by_classroom
              (envWith PNull) (textTo [bob]) (Some client)) as (Hkey & Hsingle & _).
  destruct (conversation_is_scoped_by_classroom
              (envWith PNull) (textTo [bob; alice]) (Some client)) as (_ & _ & Hgroup).
  split; [reflexivity|]. split; [reflexivity|]. split; [exact Hlen|].
  split; [exact (Hkey bob eq_refl)|].
  split; [exact (Hsingle bob eq_refl eq_refl) | exact (Hgroup Hlen)].
Defined.

(** A send that starts a conversation runs the join loop once, over
    [user#<id>] of the sender and of each receiver, with the channel of
    the new conversation as target; a message to an existing
    conversation runs none. *)
Lemma join_loop_runs_once env p fn fc :
  createNewConversation env = ResolvesObject fc ->
  let t := traceOf (createNewMessageHandler env dataOf fn) p in
  (length (receivers p) <> 1 ->
   joins t
   = [EvJoinAll
        (("user#" +:+ primToString (sender p Key.id))
         :: map (fun r : Fields => "user#" +:+ primToString (r Key.id))
              (receivers p))
        ("convo#" +:+ primToString (fc Key.id))]) /\
  (forall r,
     receivers p = [r] ->
     getTwoUsersConvoId env = Resolves PNull ->
     joins t
     = [EvJoinAll
          ["user#" +:+ primToString (sender p Key.id);
           "user#" +:+ primToString (r Key.id)]
          ("convo#" +:+ primToString (fc Key.id))]) /\
  (forall r cid,
     receivers p = [r] ->
     getTwoUsersConvoId env = Resolves cid ->
     cid <> PNull ->
     joins t = []) /\
  joins (traceOf (_newMessageHandler env dataOf fn) p) = [].
Proof.
  intros Hcc. js_trace t Ht. unfold traceOf in Ht. rewrite dispatch in Ht.
  split; [|split; [|split]].
  - intros Hlen.
    replace (Nat.eqb (length (receivers p)) 1) with false in Ht
      by (symmetry; now apply Nat.eqb_neq).
    clear Hlen.
    destruct p as [sd ms mt ca cid cr [pa|fa] cl rs];
      destruct env as [rif rim rcc rlk e1 e2 e3 e4].
    all: env_fields; subst rcc.
    all: js_run Ht.
    all: subst t; trace_read.
    all: reflexivity.
  - intros r Hrs Hlk.
    destruct p as [sd ms mt ca cid cr [pa|fa] cl rs];
      destruct env as [rif rim rcc rlk e1 e2 e3 e4].
    all: env_fields; subst rcc rs rlk; cbn [length Nat.eqb] in Ht.
    all: js_run Ht.
    all: subst t; trace_read.
    all: reflexivity.
  - intros r cd Hrs Hlk Hcd.
    destruct p as [sd ms mt ca cid cr [pa|fa] cl rs];
      destruct env as [rif rim rcc rlk e1 e2 e3 e4].
    all: env_fields; subst rcc rs rlk; cbn [length Nat.eqb] in Ht.
    all: js_run Ht.
    all: subst t; trace_read.
    all: reflexivity.
  - clear t Ht.
    remember (traceOf (_newMessageHandler env dataOf fn) p) as t eqn:Ht.
    destruct p as [sd ms mt ca cid cr [pa|fa] cl rs];
      destruct env as [rif rim rcc rlk e1 e2 e3 e4].
    all: env_fields.
    all: js_run Ht.
    all: subst t; trace_read.
    all: reflexivity.
Qed.

(** X8: a send that starts a conversation runs the join loop once, over
    [user#<id>] of the sender and of each receiver, with the channel
    [convo#<id>] of the new conversation as target.  The loop puts every
    connected socket of the namespace into that channel, whoever its user
    is, and when no broadcast follows (the run fails) the channels of the
    members stay selected on the namespace.  A message to an existing
    conversation, sent as [NEW_MESSAGE] or found by the lookup, runs no
    join loop. *)
Theorem every_socket_joins_the_new_channel env p fn fc n :
  createNewConversation env = ResolvesObject fc ->
  let t := traceOf (createNewMessageHandler env dataOf fn) p in
  let target := "convo#" +:+ primToString (fc Key.id) in
  let senderChannel := "user#" +:+ primToString (sender p Key.id) in
  (length (receivers p) <> 1 ->
   joins t
   = [EvJoinAll
        (senderChannel
         :: map (fun r : Fields => "user#" +:+ primToString (r Key.id))
              (receivers p))
        target] /\
   (forall s, In s (sockets n) -> In s (members (fst (deliver n t)) target)) /\
   (emits t = [] -> In senderChannel (rooms (fst (deliver n t))))) /\
  (forall r,
     receivers p = [r] ->
     getTwoUsersConvoId env = Resolves PNull ->
     joins t
     = [EvJoinAll [senderChannel; "user#" +:+ primToString (r Key.id)] target] /\
     (forall s, In s (sockets n) -> In s (members (fst (deliver n t)) target)) /\
     (emits t = [] ->
      In senderChannel (rooms (fst (deliver n t))) /\
      In ("user#" +:+ primToString (r Key.id)) (rooms (fst (deliver n t))))) /\
  (forall r cid,
     receivers p = [r] ->
     getTwoUsersConvoId env = Resolves cid ->
     cid <> PNull ->
     joins t = []) /\
  joins (traceOf (_newMessageHandler env dataOf fn) p) = [].
Proof.
  intros Hcc t target senderChannel.
  destruct (join_loop_runs_once env p fn fc Hcc) as (Hgroup & Hsingle & Hfound & Hsend).
  fold t target senderChannel in Hgroup, Hsingle, Hfound.
  assert (Hin : forall channels, joins t = [EvJoinAll channels target] ->
                  In (EvJoinAll channels target) t).
  { intros channels Hj.
    apply (proj1 (List.filter_In isJoin (EvJoinAll channels target) t)).
    unfold joins in Hj. rewrite Hj. now left. }
  split; [|split; [|split; [exact Hfound | exact Hsend]]].
  - intros Hlen. specialize (Hgroup Hlen). split; [exact Hgroup|]. split.
    + apply (deliver_joins_every_socket n t _ target (Hin _ Hgroup)). discriminate.
    + intros He. apply (deliver_leaves_selected n t _ target _ (Hin _ Hgroup) He).
      now left.
  - intros r Hrs Hlk. specialize (Hsingle r Hrs Hlk). split; [exact Hsingle|]. split.
    + apply (deliver_joins_every_socket n t _ target (Hin _ Hsingle)). discriminate.
    + intros He. split.
      * apply (deliver_leaves_selected n t _ target _ (Hin _ Hsingle) He). now left.
      * apply (deliver_leaves_selected n t _ target _ (Hin _ Hsingle) He).
        right. now left.
Qed.

Lemma every_socket_joins_the_new_channel_witness :
  createNewConversation (envDown PNull) = ResolvesObject (fieldsOf [(Key.id, PNum 9)]) /\
  receivers (textTo [bob]) = [bob] /\
  getTwoUsersConvoId (envDown PNull) = Resolves PNull /\
  length (receivers (textTo [bob; carol])) <> 1 /\
  In 2 (sockets lobby) /\
  members lobby "convo#9" = [] /\
  emits (createRun (envDown PNull) (textTo [bob])) = [] /\
  In 2 (members (fst (deliver lobby (createRun (envDown PNull) (textTo [bob])))) "convo#9") /\
  In "user#2" (rooms (fst (deliver lobby (createRun (envDown PNull) (textTo [bob]))))) /\
  joins (createRun (envWith PNull) (textTo [bob; carol]))
  = [EvJoinAll ["user#1"; "user#2"; "user#3"] "convo#9"] /\
  joins (createRun (envWith (PNum 8)) (textTo [bob])) = [].
Proof.
  assert (Hlen : length (receivers (textTo [bob; carol])) <> 1) by (cbn; lia).
  assert (Hneq : PNum 8 <> PNull) by discriminate.
  assert (Hs : In 2 (sockets lobby)) by (right; right; left; reflexivity).
  assert (He : emits (createRun (envDown PNull) (textTo [bob])) = [])
    by (vm_compute; reflexivity).
  destruct (every_socket_joins_the_new_channel
              (envDown PNull) (textTo [bob]) (Some client) _ lobby eq_refl)
    as (_ & Hsingle & _).
  destruct (every_socket_joins_the_new_channel
              (envWith PNull) (textTo [bob; carol]) (Some client) _ lobby eq_refl)
    as (Hgroup & _).
  destruct (every_socket_joins_the_new_channel
              (envWith (PNum 8)) (textTo [bob]) (Some client) _ lobby eq_refl)
    as (_ & _ & Hfound & _).
  destruct (Hsingle bob eq_refl eq_refl) as (_ & Hall & Hleft).
  destruct (Hgroup Hlen) as (Hj & _).
  split; [reflexivity|]. split; [reflexivity|]. split; [reflexivity|].
  split; [exact Hlen|]. split; [exact Hs|]. split; [reflexivity|].
  split; [exact He|]. split; [exact (Hall 2 Hs)|].
  split; [exact (proj2 (Hleft He))|]. split; [exact Hj|].
  exact (Hfound bob (PNum 8) eq_refl eq_refl Hneq).
Defined.

(** ** What a handler never does *)

(** X9: no handler run calls a service twice. *)
Theorem each_service_is_called_at_most_once env p fn svc :
  length (calls svc (traceOf (_newMessageHandler env dataOf fn) p)) <= 1 /\
  length (calls svc (traceOf (createNewMessageHandler env dataOf fn) p)) <= 1.
Proof.
  split.
  - remember (traceOf (_newMessageHandler env dataOf fn) p) as t eqn:Ht.
    destruct p as [sd ms mt ca cid cr [pa|fa] cl rs];
      destruct env as [rif rim rcc rlk e1 e2 e3 e4].
    all: env_fields.
    all: js_run Ht.
    all: subst t; destruct svc; cbn; lia.
  - remember (traceOf (createNewMessageHandler env dataOf fn) p) as t eqn:Ht.
    unfold traceOf in Ht. rewrite dispatch in Ht.
    destruct p as [sd ms mt ca cid cr att cl rs];
      destruct env as [rif rim rcc rlk e1 e2 e3 e4].
    env_fields.
    split_paths rs att.
    all: js_run Ht.
    all: subst t; destruct svc; cbn; lia.
Qed.

(** X10: whatever the services do, the promise of [_newMessageHandler]
    is fulfilled, and [createNewMessageHandler] returns normally and
    leaves no rejection unhandled: every failure of a service ends in the
    [catch] block of a handler. *)
Theorem handlers_catch_every_rejection env p fn :
  fst (_newMessageHandler env dataOf fn (start p)) = Fulfilled undefined /\
  (let r := createNewMessageHandler env dataOf fn (start p) in
   fst r = Normal tt /\ existsb isUnhandled (trace (snd r)) = false).
Proof.
  split.
  - remember (_newMessageHandler env dataOf fn (start p)) as r eqn:Hr.
    destruct p as [sd ms mt ca cid cr [pa|fa] cl rs];
      destruct env as [rif rim rcc rlk e1 e2 e3 e4].
    all: env_fields.
    all: js_run Hr.
    all: subst r; reflexivity.
  - js_trace r Hr. rewrite dispatch in Hr.
    destruct p as [sd ms mt ca cid cr att cl rs];
      destruct env as [rif rim rcc rlk e1 e2 e3 e4].
    env_fields.
    split_paths rs att.
    all: js_run Hr.
    all: subst r; split; reflexivity.
Qed.

(** X11: whether the packet came with an acknowledgment function, and
    which, changes nothing but the calls of that function: the service
    calls, the joins, the logs and the broadcasts of the run are the
    same. *)
Theorem callback_changes_nothing_else env p fn fn' :
  nonCallbacks (traceOf (_newMessageHandler env dataOf fn) p)
  = nonCallbacks (traceOf (_newMessageHandler env dataOf fn') p) /\
  nonCallbacks (traceOf (createNewMessageHandler env dataOf fn) p)
  = nonCallbacks (traceOf (createNewMessageHandler env dataOf fn') p).
Proof.
  split.
  - remember (traceOf (_newMessageHandler env dataOf fn) p) as t eqn:Ht.
    remember (traceOf (_newMessageHandler env dataOf fn') p) as t' eqn:Ht'.
    destruct p as [sd ms mt ca cid cr [pa|fa] cl rs];
      destruct env as [rif rim rcc rlk e1 e2 e3 e4].
    all: env_fields.
    all: js_run Ht.
    all: js_rerun Ht'.
    all: subst t t'; reflexivity.
  - remember (traceOf (createNewMessageHandler env dataOf fn) p) as t eqn:Ht.
    remember (traceOf (createNewMessageHandler env dataOf fn') p) as t' eqn:Ht'.
    unfold traceOf in Ht, Ht'. rewrite dispatch in Ht, Ht'.
    destruct p as [sd ms mt ca cid cr att cl rs];
      destruct env as [rif rim rcc rlk e1 e2 e3 e4].
    env_fields.
    split_paths rs att.
    all: js_run Ht.
    all: js_rerun Ht'.
    all: subst t t'; reflexivity.
Qed.

(** ** One conversation object in two payloads *)

(** X12: the two [FIRST_TIME_MESSAGE] payloads of a new single
    conversation are two objects that hold the same conversation object
    and the same message object; the name of the conversation is assigned
    between the two broadcasts, so the first payload, read after the
    second broadcast, shows the name of the sender as well. *)
Theorem payloads_share_the_conversation env p fn r :
  receivers p = [r] ->
  getTwoUsersConvoId env = Resolves PNull ->
  let t := traceOf (createNewMessageHandler env dataOf fn) p in
  failed t = false ->
  exists c1 c2 ev p1 h1 p2 h2 convo msg,
    emits t = [EvEmit c1 ev p1 h1; EvEmit c2 ev p2 h2] /\
    p1 <> p2 /\
    readPath h1 p1 [Key.newConvo] = JRef convo /\
    readPath h2 p2 [Key.newConvo] = JRef convo /\
    readPath h1 p1 [Key.newMsg] = JRef msg /\
    readPath h2 p2 [Key.newMsg] = JRef msg /\
    readPath h2 p1 [Key.newConvo; Key.conversation_name]
    = JPrim (sender p Key.name).
Proof.
  intros Hrs Hlk. js_trace t Ht. unfold traceOf in Ht. rewrite dispatch in Ht.
  destruct p as [sd ms mt ca cid cr [pa|fa] cl rs];
    destruct env as [rif rim rcc rlk e1 e2 e3 e4].
  all: env_fields; subst rs rlk; cbn [length Nat.eqb] in Ht.
  all: js_run Ht.
  all: subst t; trace_read.
  all: intros; try discriminate;
    (do 9 eexists; split; [reflexivity|]; split; [discriminate|]; repeat split).
Qed.

Lemma payloads_share_the_conversation_witness :
  receivers (textTo [bob]) = [bob] /\
  getTwoUsersConvoId (envWith PNull) = Resolves PNull /\
  failed (createRun (envWith PNull) (textTo [bob])) = false /\
  exists c1 c2 ev p1 h1 p2 h2,
    emits (createRun (envWith PNull) (textTo [bob]))
    = [EvEmit c1 ev p1 h1; EvEmit c2 ev p2 h2] /\
    p1 <> p2 /\
    readPath h1 p1 [Key.newConvo] = readPath h2 p2 [Key.newConvo] /\
    readPath h2 p1 [Key.newConvo; Key.conversation_name] = JPrim (PStr "A").
Proof.
  assert (Hok : failed (createRun (envWith PNull) (textTo [bob])) = false)
    by (vm_compute; reflexivity).
  destruct (payloads_share_the_conversation
              (envWith PNull) (textTo [bob]) (Some client) bob eq_refl eq_refl Hok)
    as (c1 & c2 & ev & p1 & h1 & p2 & h2 & convo & msg
        & He & Hne & H1 & H2 & _ & _ & Hname).
  split; [reflexivity|]. split; [reflexivity|]. split; [exact Hok|].
  exists c1, c2, ev, p1, h1, p2, h2.
  split; [exact He|]. split; [exact Hne|].
  split; [rewrite H1, H2; reflexivity | exact Hname].
Defined.

(** ** Nothing is rolled back *)

(** X19: when [insertMessage] rejects, what was written before stays: a
    send that started a conversation has created it and made its members
    join its channel, and a [NEW_MESSAGE] with an attachment has stored
    the file; in both cases nothing is broadcast. *)
Theorem failure_leaves_earlier_writes env p fn :
  rejects (insertMessage env) = true ->
  (forall fc,
     createNewConversation env = ResolvesObject fc ->
     let t := traceOf (createNewMessageHandler env dataOf fn) p in
     (length (receivers p) <> 1 ->
      length (calls CreateNewConversation t) = 1 /\ length (joins t) = 1 /\
      called InsertMessage t = true /\ emits t = []) /\
     (forall r,
        receivers p = [r] ->
        getTwoUsersConvoId env = Resolves PNull ->
        length (calls CreateNewConversation t) = 1 /\ length (joins t) = 1 /\
        called InsertMessage t = true /\ emits t = [])) /\
  (forall fa,
     attachment p = IObj fa ->
     resolvesValue (insertFile env) = true ->
     let t := traceOf (_newMessageHandler env dataOf fn) p in
     length (calls InsertFile t) = 1 /\
     called InsertMessage t = true /\ emits t = []).
Proof.
  intros Him. split.
  - intros fc Hcc. js_trace t Ht. unfold traceOf in Ht. rewrite dispatch in Ht.
    split.
    + intros Hlen.
      replace (Nat.eqb (length (receivers p)) 1) with false in Ht
        by (symmetry; now apply Nat.eqb_neq).
      clear Hlen.
      destruct p as [sd ms mt ca cid cr [pa|fa] cl rs];
        destruct env as [rif rim rcc rlk e1 e2 e3 e4].
      all: env_fields; subst rcc; destruct rim; try discriminate Him.
      all: js_run Ht.
      all: subst t; trace_read.
      all: repeat split.
    + intros r Hrs Hlk.
      destruct p as [sd ms mt ca cid cr [pa|fa] cl rs];
        destruct env as [rif rim rcc rlk e1 e2 e3 e4].
      all: env_fields; subst rcc rs rlk; destruct rim; try discriminate Him.
      all: cbn [length Nat.eqb] in Ht.
      all: js_run Ht.
      all: subst t; trace_read.
      all: repeat split.
  - intros fa Hatt Hif. js_trace t Ht.
    destruct p as [sd ms mt ca cid cr att cl rs];
      destruct env as [rif rim rcc rlk e1 e2 e3 e4].
    unfold resolvesValue in Hif; env_fields; subst att;
      destruct rim; try discriminate Him.
    js_run Ht.
    all: subst t; trace_read.
    all: try discriminate Hif.
    all: try (rewrite E in Hif; discriminate Hif).
    all: repeat split.
Qed.

Lemma failure_leaves_earlier_writes_witness :
  rejects (insertMessage (envDown PNull)) = true /\
  createNewConversation (envDown PNull) = ResolvesObject (fieldsOf [(Key.id, PNum 9)]) /\
  receivers (fileTo [bob]) = [bob] /\
  getTwoUsersConvoId (envDown PNull) = Resolves PNull /\
  length (receivers (fileTo [bob; carol])) <> 1 /\
  attachment (fileTo [bob]) = IObj (fieldsOf [(Key.name, PStr "f.png")]) /\
  resolvesValue (insertFile (envDown PNull)) = true /\
  length (calls CreateNewConversation (createRun (envDown PNull) (fileTo [bob]))) = 1 /\
  length (joins (createRun (envDown PNull) (fileTo [bob; carol]))) = 1 /\
  length (calls InsertFile (sendRun (envDown PNull) (fileTo [bob]))) = 1 /\
  emits (sendRun (envDown PNull) (fileTo [bob])) = [].
Proof.
  assert (Hlen : length (receivers (fileTo [bob; carol])) <> 1) by (cbn; lia).
  destruct (failure_leaves_earlier_writes (envDown PNull) (fileTo [bob]) (Some client)
              eq_refl) as (Hcreate & Hsend).
  destruct (failure_leaves_earlier_writes (envDown PNull) (fileTo [bob; carol])
              (Some client) eq_refl) as (Hcreate' & _).
  destruct (Hcreate _ eq_refl) as (_ & Hsingle).
  destruct (Hcreate' _ eq_refl) as (Hgroup & _).
  destruct (Hsingle bob eq_refl eq_refl) as (Hc & _).
  destruct (Hgroup Hlen) as (_ & Hj & _).
  destruct (Hsend _ eq_refl eq_refl) as (Hf & _ & He).
  split; [reflexivity|]. split; [reflexivity|]. split; [reflexivity|].
  split; [reflexivity|]. split; [exact Hlen|]. split; [reflexivity|].
  split; [reflexivity|]. split; [exact Hc|]. split; [exact Hj|].
  split; [exact Hf | exact He].
Defined.

(** * The connection of a user *)

Lemma forEachB_join (f : Prim -> string) arr l w :
  forEachB (fun id => socketJoin (f id)) arr (mkConn l w)
  = (Normal tt, mkConn (l ++ map (fun id => SockJoin (f id)) arr)%list w).
Proof.
  revert l. induction arr as [|a arr IH]; intros l; cbn.
  - now rewrite app_nil_r.
  - unfold bindB, socketJoin, note at 1. cbn. rewrite IH. now rewrite <- app_assoc.
Qed.

Lemma connect_authenticated env ids sock u :
  user sock = IObj u ->
  connect env ids sock
  = (Normal tt,
     SockJoin ("user#" +:+ primToString (u Key.id))
     :: SockGetUserConversationIds (JPrim (u Key.id))
     :: SockOn (NEW_MESSAGE env) NewMessageListener
     :: SockOn (CREATE_NEW_MESSAGE env) CreateNewMessageListener
     :: afterInit ids).
Proof.
  intros Hu. unfold connect, handleEvents, init, joinUserChannel,
    joinConvoChannels, socketUserId. rewrite Hu. cbn.
  destruct ids as [e|arr|q]; cbn; try reflexivity.
  now rewrite forEachB_join.
Qed.

Lemma joined_connect env ids sock u :
  user sock = IObj u ->
  joined (snd (connect env ids sock))
  = ("user#" +:+ primToString (u Key.id)) :: joined (afterInit ids).
Proof.
  intros Hu. rewrite (connect_authenticated env ids sock u Hu). reflexivity.
Qed.

Lemma joined_afterInit ids :
  joined (afterInit ids)
  = match ids with
    | IdsResolves arr => map (fun id => "convo#" +:+ primToString id) arr
    | _ => []
    end.
Proof.
  destruct ids as [e|arr|q]; try reflexivity.
  unfold afterInit.
  induction arr as [|a arr IH]; [reflexivity|].
  cbn [map joined]. now rewrite IH.
Qed.

(** X13: for an authenticated socket, whatever the list of the user's
    conversations settles with (ids, no ids, a rejection, a value that is
    no array), [handleEvents] returns normally, the socket joins
    [user#<id>] first, and the [NEW_MESSAGE] and [CREATE_NEW_MESSAGE]
    listeners, and no others, are registered before any conversation
    channel is joined. *)
Theorem listeners_are_registered_whatever_the_fetch env ids sock u :
  user sock = IObj u ->
  fst (connect env ids sock) = Normal tt /\
  exists rest,
    snd (connect env ids sock)
    = SockJoin ("user#" +:+ primToString (u Key.id))
      :: SockGetUserConversationIds (JPrim (u Key.id))
      :: SockOn (NEW_MESSAGE env) NewMessageListener
      :: SockOn (CREATE_NEW_MESSAGE env) CreateNewMessageListener
      :: rest /\
    List.filter isOn rest = [].
Proof.
  intros Hu. rewrite (connect_authenticated env ids sock u Hu).
  split; [reflexivity|]. eexists. split; [reflexivity|].
  destruct ids as [e|arr|q]; try reflexivity.
  cbn. induction arr; [reflexivity|assumption].
Qed.

Lemma listeners_are_registered_whatever_the_fetch_witness :
  user aliceSocket = IObj alice /\
  List.filter isOn
    (snd (connect (envWith PNull) (IdsRejects (JError "ECONNRESET")) aliceSocket))
  = [SockOn "NEW_MESSAGE" NewMessageListener;
     SockOn "CREATE_NEW_MESSAGE" CreateNewMessageListener].
Proof.
  destruct (listeners_are_registered_whatever_the_fetch
              (envWith PNull) (IdsRejects (JError "ECONNRESET")) aliceSocket alice eq_refl)
    as (_ & rest & Hl & Hrest).
  split; [reflexivity|].
  rewrite Hl. cbn [List.filter isOn]. rewrite Hrest. reflexivity.
Defined.

(** X14: an authenticated socket joins its user channel and then
    [convo#<id>] for each id of the list, in the order of the list (none
    for an empty list).  When [getUserConversationIds] rejects, or
    resolves with something that is no array, no conversation channel is
    joined and the rejection stays unhandled: [joinConvoChannels] has no
    [catch]. *)
Theorem conversation_channels_are_joined env ids sock u :
  user sock = IObj u ->
  joined (snd (connect env ids sock))
  = ("user#" +:+ primToString (u Key.id))
    :: match ids with
       | IdsResolves arr => map (fun id => "convo#" +:+ primToString id) arr
       | _ => []
       end /\
  List.filter isSockUnhandled (snd (connect env ids sock))
  = match ids with
    | IdsRejects e => [SockUnhandledRejection e]
    | IdsResolves _ => []
    | IdsResolvesOther _ => [SockUnhandledRejection JTypeError]
    end.
Proof.
  intros Hu. split.
  - now rewrite (joined_connect env ids sock u Hu), joined_afterInit.
  - rewrite (connect_authenticated env ids sock u Hu).
    destruct ids as [e|arr|q]; try reflexivity.
    cbn. induction arr; [reflexivity|assumption].
Qed.

Lemma conversation_channels_are_joined_witness :
  user aliceSocket = IObj alice /\
  joined (snd (connect (envWith PNull) (IdsResolves [PNum 7; PNum 9]) aliceSocket))
  = ["user#1"; "convo#7"; "convo#9"] /\
  joined (snd (connect (envWith PNull) (IdsResolves []) aliceSocket)) = ["user#1"] /\
  List.filter isSockUnhandled
    (snd (connect (envWith PNull) (IdsRejects (JError "ECONNRESET")) aliceSocket))
  = [SockUnhandledRejection (JError "ECONNRESET")].
Proof.
  split; [reflexivity|].
  split; [exact (proj1 (conversation_channels_are_joined
                          (envWith PNull) (IdsResolves [PNum 7; PNum 9])
                          aliceSocket alice eq_refl))|].
  split; [exact (proj1 (conversation_channels_are_joined
                          (envWith PNull) (IdsResolves []) aliceSocket alice eq_refl))|].
  exact (proj2 (conversation_channels_are_joined
                  (envWith PNull) (IdsRejects (JError "ECONNRESET"))
                  aliceSocket alice eq_refl)).
Defined.

(** X15: on a socket without a [user], [handleEvents] throws a
    [TypeError] at its first step: no channel is joined, the user service
    is not called and no listener is registered. *)
Theorem unauthenticated_socket_gets_no_listener env ids sock p :
  user sock = IPrim p ->
  nullishPrim p = true ->
  connect env ids sock = (Thrown JTypeError, []).
Proof.
  intros Hu Hp. unfold connect, handleEvents, init, joinUserChannel,
    joinConvoChannels, socketUserId. rewrite Hu. cbn. now rewrite Hp.
Qed.

Lemma unauthenticated_socket_gets_no_listener_witness :
  user anonymousSocket = IPrim PUndefined /\
  nullishPrim PUndefined = true /\
  connect (envWith PNull) (IdsResolves [PNum 7]) anonymousSocket
  = (Thrown JTypeError, []).
Proof.
  split; [reflexivity|]. split; [reflexivity|].
  exact (unauthenticated_socket_gets_no_listener
           (envWith PNull) (IdsResolves [PNum 7]) anonymousSocket PUndefined
           eq_refl eq_refl).
Defined.

(** ** Channels: who gets a broadcast *)









(** * The database configuration *)

(** X18: each of [host], [user], [password] and [database] of the
    development connection is its environment variable when that is set
    to a string that is not empty, and its default otherwise: a variable
    set to the empty string counts as unset, so none of the four is ever
    empty; [staging] and [production] have no connection at all. *)
Theorem development_connection_is_never_empty (penv : Knexfile.ProcessEnv) :
  (exists c,
     Knexfile.connectionOf (Knexfile.development (Knexfile.exports penv)) = Some c /\
     Knexfile.host c = Knexfile.setOr penv "DATABASE_HOST" "localhost" /\
     Knexfile.user c = Knexfile.setOr penv "DATABASE_USERNAME" "root" /\
     Knexfile.password c = Knexfile.setOr penv "DATABASE_PASSWORD" "password" /\
     Knexfile.database c = Knexfile.setOr penv "DATABASE_NAME" "remind_clone" /\
     Knexfile.nonEmpty (Knexfile.host c) /\
     Knexfile.nonEmpty (Knexfile.user c) /\
     Knexfile.nonEmpty (Knexfile.password c) /\
     Knexfile.nonEmpty (Knexfile.database c)) /\
  Knexfile.connectionOf (Knexfile.staging (Knexfile.exports penv)) = None /\
  Knexfile.connectionOf (Knexfile.production (Knexfile.exports penv)) = None.
Proof.
  assert (Hor : forall name fallback,
             jsOr (Knexfile.envVar penv name) (JPrim (PStr fallback))
             = Knexfile.setOr penv name fallback).
  { intros name fallback. unfold jsOr, Knexfile.envVar, Knexfile.setOr, truthy, truthyPrim.
    destruct (penv name) as [s|]; [|reflexivity].
    now destruct (String.eqb s ""). }
  assert (Hne : forall name fallback,
             fallback <> "" -> Knexfile.nonEmpty (Knexfile.setOr penv name fallback)).
  { intros name fallback Hf. unfold Knexfile.setOr, Knexfile.nonEmpty.
    destruct (penv name) as [s|]; [|now exists fallback].
    destruct (String.eqb_spec s ""); [now exists fallback | now exists s]. }
  split; [|split; reflexivity].
  eexists. split; [reflexivity|]. cbn [Knexfile.host Knexfile.user Knexfile.password Knexfile.database].
  rewrite !Hor. repeat split; apply Hne; discriminate.
Qed.
